(** * discord_http/embeds.py: the [Embed] builder and its transport mapping

    A shallow embedding of the class [Embed] of [discord_http/embeds.py].
    Python objects live in a store indexed by references, so that two
    names bound to one dict or list really share it; every method is a
    computation over that store which either returns a value or raises. *)

From Stdlib Require Import ZArith.
From stdpp Require Import base list gmap strings.

Local Open Scope string_scope.
Local Open Scope Z_scope.
Local Open Scope list_scope.

(** ** Values and objects *)

(** Modelled from the spec: the colour wrapper of [discord_http/colour.py]
    (that file is not among the sources). The spec describes it as a value
    type that "constructs from / converts to a plain integer" and
    "normalizes a 24-bit RGB integer", and its omission rule counts colour
    0 as falsy. The wrappers [Colour] builds hold an integer within
    [0..0xFFFFFF]. *)
Record Colour : Type := mkColour { colour_value : Z }.

(** Modelled from the spec: [bool(c)] for a colour wrapper. The omission
    rule of the spec counts "zero colour" among the falsy values. *)
Definition Colour_bool (c : Colour) : bool := negb (colour_value c =? 0).

(** Modelled from the spec: [int(c)] for a colour wrapper, which
    "converts to a plain integer". *)
Definition Colour_int (c : Colour) : Z := colour_value c.

(** Modelled from the spec: the URL-like reference type of
    [discord_http/asset.py] (not among the sources), "stringified wherever
    used". *)
Record Asset : Type := mkAsset { asset_url : string }.

(** A [datetime.datetime]: the wall-clock reading (microseconds) and the
    UTC offset in seconds of its [tzinfo], [None] for a naive value. *)
Record datetime : Type := mkDatetime { wall : Z; tzinfo : option Z }.

Abbreviation loc := nat (only parsing).

Inductive val : Type :=
| VNone
| VBool (b : bool)
| VInt (z : Z)
| VStr (s : string)
| VColour (c : Colour)
| VDatetime (d : datetime)
| VRef (l : loc).

Inductive obj : Type :=
| ODict (d : gmap string val)
| OList (xs : list val)
| OInstance (attrs : gmap string val).

Abbreviation heap := (list obj) (only parsing).

Inductive exn : Type :=
| AttributeError | KeyError | IndexError | TypeError | ValueError.

Inductive res (A : Type) : Type :=
| Ret (a : A)
| Raise (e : exn).
Arguments Ret {A} a.
Arguments Raise {A} e.

#[global] Instance Colour_eq_dec : EqDecision Colour.
Proof. solve_decision. Defined.
#[global] Instance datetime_eq_dec : EqDecision datetime.
Proof. solve_decision. Defined.
#[global] Instance val_eq_dec : EqDecision val.
Proof. solve_decision. Defined.
#[global] Instance exn_eq_dec : EqDecision exn.
Proof. solve_decision. Defined.

(** ** Computations over the store *)

Definition M (A : Type) : Type := heap -> res A * heap.

Definition ret {A} (a : A) : M A := fun h => (Ret a, h).

Definition raise {A} (e : exn) : M A := fun h => (Raise e, h).

Definition bind {A B} (m : M A) (k : A -> M B) : M B :=
  fun h =>
    match m h with
    | (Ret a, h') => k a h'
    | (Raise e, h') => (Raise e, h')
    end.

(** [try: m except e: pass] *)
Definition try_except_pass (m : M unit) (e : exn) : M unit :=
  fun h =>
    match m h with
    | (Ret u, h') => (Ret u, h')
    | (Raise e', h') => if decide (e' = e) then (Ret tt, h') else (Raise e', h')
    end.

Declare Scope py_scope.
Delimit Scope py_scope with py.
Notation "'let!' x ':=' m 'in' k" := (bind m (fun x => k))
  (at level 10, x name, m at level 100, k at level 200) : py_scope.
Notation "m '>>' k" := (bind m (fun _ => k))
  (at level 100, k at level 200, right associativity) : py_scope.
Local Open Scope py_scope.

Definition when (b : bool) (m : M unit) : M unit := if b then m else ret tt.

(** Object creation: the new object gets the next unused reference. *)
Definition alloc (o : obj) : M loc :=
  fun h => (Ret (length h), h ++ [o]).

(** [{}] and [[]] *)
Definition new_dict : M val := let! l := alloc (ODict ∅) in ret (VRef l).
Definition new_list : M val := let! l := alloc (OList []) in ret (VRef l).

(** [self.name] *)
Definition getattr (self : loc) (name : string) : M val :=
  fun h =>
    match h !! self with
    | Some (OInstance attrs) =>
        match attrs !! name with
        | Some v => (Ret v, h)
        | None => (Raise AttributeError, h)
        end
    | _ => (Raise AttributeError, h)
    end.

(** [self.name = v] *)
Definition setattr (self : loc) (name : string) (v : val) : M unit :=
  fun h =>
    match h !! self with
    | Some (OInstance attrs) =>
        (Ret tt, <[self := OInstance (<[name := v]> attrs)]> h)
    | _ => (Raise AttributeError, h)
    end.

(** [target[key] = v] with a string key *)
Definition setitem (target : val) (key : string) (v : val) : M unit :=
  fun h =>
    match target with
    | VRef l =>
        match h !! l with
        | Some (ODict d) => (Ret tt, <[l := ODict (<[key := v]> d)]> h)
        | _ => (Raise TypeError, h)
        end
    | _ => (Raise TypeError, h)
    end.

(** [target[key]] with a string key *)
Definition getitem (target : val) (key : string) : M val :=
  fun h =>
    match target with
    | VRef l =>
        match h !! l with
        | Some (ODict d) =>
            match d !! key with
            | Some v => (Ret v, h)
            | None => (Raise KeyError, h)
            end
        | _ => (Raise TypeError, h)
        end
    | _ => (Raise TypeError, h)
    end.

(** [target.get(key, default)] *)
Definition dict_get (target : val) (key : string) (dflt : val) : M val :=
  fun h =>
    match target with
    | VRef l =>
        match h !! l with
        | Some (ODict d) => (Ret (default dflt (d !! key)), h)
        | _ => (Raise AttributeError, h)
        end
    | _ => (Raise AttributeError, h)
    end.

(** [target.clear()] : dicts and lists have the method *)
Definition clear (target : val) : M unit :=
  fun h =>
    match target with
    | VRef l =>
        match h !! l with
        | Some (ODict _) => (Ret tt, <[l := ODict ∅]> h)
        | Some (OList _) => (Ret tt, <[l := OList []]> h)
        | _ => (Raise AttributeError, h)
        end
    | _ => (Raise AttributeError, h)
    end.

(** [target.append(v)] *)
Definition append (target : val) (v : val) : M unit :=
  fun h =>
    match target with
    | VRef l =>
        match h !! l with
        | Some (OList xs) => (Ret tt, <[l := OList (xs ++ [v])]> h)
        | _ => (Raise AttributeError, h)
        end
    | _ => (Raise AttributeError, h)
    end.

(** [del target[index]] with an integer index. On a list of length [n]
    the positions [0 .. n-1] and, counted from the end, [-n .. -1] are
    valid, anything else is an [IndexError]. A dict of string keys has no
    integer key, which is a [KeyError]. *)
Definition delitem (target : val) (index : Z) : M unit :=
  fun h =>
    match target with
    | VRef l =>
        match h !! l with
        | Some (OList xs) =>
            let n := Z.of_nat (length xs) in
            if decide (0 <= index < n) then
              (Ret tt, <[l := OList (delete (Z.to_nat index) xs)]> h)
            else if decide (- n <= index < 0) then
              (Ret tt, <[l := OList (delete (Z.to_nat (index + n)) xs)]> h)
            else (Raise IndexError, h)
        | Some (ODict _) => (Raise KeyError, h)
        | _ => (Raise TypeError, h)
        end
    | _ => (Raise TypeError, h)
    end.

(** [bool(v)], the test of [if v:]. Strings, dicts and lists are falsy
    when empty, numbers when zero; a [datetime] and a plain instance are
    always truthy; the colour wrapper answers for itself. *)
Definition truthy (h : heap) (v : val) : bool :=
  match v with
  | VNone => false
  | VBool b => b
  | VInt z => negb (z =? 0)
  | VStr s => match s with EmptyString => false | _ => true end
  | VColour c => Colour_bool c
  | VDatetime _ => true
  | VRef l =>
      match h !! l with
      | Some (ODict d) => negb (bool_decide (d = ∅))
      | Some (OList xs) => match xs with [] => false | _ => true end
      | _ => true
      end
  end.

Definition py_bool (v : val) : M bool := fun h => (Ret (truthy h v), h).

(** [v is None] *)
Definition is_None (v : val) : bool :=
  match v with VNone => true | _ => false end.

(** [isinstance(v, datetime)] *)
Definition isinstance_datetime (v : val) : bool :=
  match v with VDatetime _ => true | _ => false end.

(** Modelled from the spec: the colour is a 24-bit integer, [0..0xFFFFFF]
    in the transport mapping. *)
Definition in_colour_range (z : Z) : bool := (0 <=? z) && (z <=? 16777215).

(** Modelled from the spec: [Colour(v)], the wrapper of a 24-bit integer.
    It is built from a plain integer within [0..0xFFFFFF] ([bool] is a
    subclass of [int]); an integer outside that range is refused with
    [ValueError], and a value that is no integer with [TypeError]. *)
Definition Colour_new (v : val) : M val :=
  match v with
  | VInt z =>
      if in_colour_range z then ret (VColour (mkColour z)) else raise ValueError
  | VBool b => ret (VColour (mkColour (Z.b2z b)))
  | _ => raise TypeError
  end.

(** Arguments annotated [str | None]. *)
Definition opt_str (o : option string) : val :=
  match o with Some s => VStr s | None => VNone end.

(** Arguments annotated [datetime | None]. *)
Definition opt_datetime (o : option datetime) : val :=
  match o with Some d => VDatetime d | None => VNone end.

(** Arguments annotated [Asset | str]. *)
Inductive url_like : Type :=
| UStr (s : string)
| UAsset (a : Asset).

(** [str(u)] *)
Definition str_url (u : url_like) : string :=
  match u with UStr s => s | UAsset a => asset_url a end.

(** [bool(u)] for an argument annotated [str | None] or [Asset | str | None] *)
Definition truthy_str (o : option string) : bool :=
  match o with Some (String _ _) => true | _ => false end.

Definition truthy_url (o : option url_like) : bool :=
  match o with
  | Some (UStr (String _ _)) => true
  | Some (UAsset _) => true
  | _ => false
  end.

(** The two interpolations of an f-string are kept as values. *)
Inductive fpart : Type :=
| Lit (s : string)
| Interp (v : val).

(** ** The class [Embed] *)

(** What the interpreter and the host supply: the UTC offset (seconds) of
    the local zone for a naive local reading and for a UTC instant,
    [datetime.isoformat], and the built-in [int] on a [str] ([None] for
    its [ValueError]). *)
Class Host : Type := mkHost {
  local_utcoffset : Z -> Z;
  utcoffset_at : Z -> Z;
  isoformat : datetime -> string;
  int_of_str : string -> option Z
}.

Section Embed.

Context {host : Host}.

(** [d.astimezone()]: a naive value is presumed to be local time and gets
    the local zone attached; an aware one is converted to the local zone. *)
Definition astimezone (d : datetime) : datetime :=
  match tzinfo d with
  | None => {| wall := wall d; tzinfo := Some (local_utcoffset (wall d)) |}
  | Some off =>
      let utc := wall d - off * 1000000 in
      {| wall := utc + utcoffset_at utc * 1000000;
         tzinfo := Some (utcoffset_at utc) |}
  end.

(** [int(v)] *)
Definition py_int (v : val) : M Z :=
  match v with
  | VInt z => ret z
  | VBool b => ret (Z.b2z b)
  | VColour c => ret (Colour_int c)
  | VStr s => match int_of_str s with Some z => ret z | None => raise ValueError end
  | _ => raise TypeError
  end.

Definition __init__ (self : loc) (title description : option string)
    (colour color : val) (url : option string)
    (timestamp : option datetime) : M unit :=
  setattr self "colour" VNone >>
  (if negb (is_None colour) then
     let! z := py_int colour in
     let! c := Colour_new (VInt z) in
     setattr self "colour" c
   else if negb (is_None color) then
     let! z := py_int color in
     let! c := Colour_new (VInt z) in
     setattr self "colour" c
   else ret tt) >>
  setattr self "title" (opt_str title) >>
  setattr self "description" (opt_str description) >>
  setattr self "timestamp" (opt_datetime timestamp) >>
  setattr self "url" (opt_str url) >>
  setattr self "type" (VStr "rich") >>
  (let! d := new_dict in setattr self "footer" d) >>
  (let! d := new_dict in setattr self "image" d) >>
  (let! d := new_dict in setattr self "thumbnail" d) >>
  (let! d := new_dict in setattr self "author" d) >>
  (let! l := new_list in setattr self "fields" l) >>
  (* [str] of a [str] is that string *)
  (let! t := getattr self "title" in
   when (negb (is_None t)) (setattr self "title" t)) >>
  (let! t := getattr self "description" in
   when (negb (is_None t)) (setattr self "description" t)) >>
  when (negb (is_None (opt_datetime timestamp)))
    (setattr self "timestamp" (opt_datetime timestamp)).

(** [Embed(...)]: a new instance, initialised by [__init__]. *)
Definition Embed (title description : option string) (colour color : val)
    (url : option string) (timestamp : option datetime) : M val :=
  let! self := alloc (OInstance ∅) in
  __init__ self title description colour color url timestamp >>
  ret (VRef self).

Definition __repr__ (self : loc) : M (list fpart) :=
  let! title := getattr self "title" in
  let! colour := getattr self "colour" in
  ret [Lit "<Embed title="; Interp title; Lit " colour="; Interp colour; Lit ">"].

Definition set_colour (self : loc) (value : val) : M val :=
  (if is_None value then setattr self "_colour" VNone
   else
     let! z := py_int value in
     let! c := Colour_new (VInt z) in
     setattr self "_colour" c) >>
  ret (VRef self).

Definition set_footer (self : loc) (text : option string)
    (icon_url : option url_like) : M val :=
  (if negb (truthy_str text || truthy_url icon_url) then
     let! footer := getattr self "footer" in clear footer
   else
     (match text with
      | Some s =>
          when (truthy_str text)
            (let! footer := getattr self "footer" in
             setitem footer "text" (VStr s))
      | None => ret tt
      end) >>
     (match icon_url with
      | Some u =>
          when (truthy_url icon_url)
            (let! footer := getattr self "footer" in
             setitem footer "icon_url" (VStr (str_url u)))
      | None => ret tt
      end)) >>
  ret (VRef self).

Definition remove_footer (self : loc) : M val :=
  (let! d := new_dict in setattr self "footer" d) >>
  ret (VRef self).

Definition set_author (self : loc) (name : string) (url : option string)
    (icon_url : option url_like) : M val :=
  (let! author := getattr self "author" in
   setitem author "name" (VStr name)) >>
  (match url with
   | Some s =>
       let! author := getattr self "author" in
       setitem author "url" (VStr s)
   | None => ret tt
   end) >>
  (match icon_url with
   | Some u =>
       let! author := getattr self "author" in
       setitem author "icon_url" (VStr (str_url u))
   | None => ret tt
   end) >>
  ret (VRef self).

Definition remove_author (self : loc) : M val :=
  (let! d := new_dict in setattr self "author" d) >>
  ret (VRef self).

Definition set_image (self : loc) (url : option url_like) : M val :=
  (match url with
   | Some u =>
       let! image := getattr self "image" in
       setitem image "url" (VStr (str_url u))
   | None =>
       let! image := getattr self "image" in clear image
   end) >>
  ret (VRef self).

Definition remove_image (self : loc) : M val :=
  (let! d := new_dict in setattr self "image" d) >>
  ret (VRef self).

Definition set_thumbnail (self : loc) (url : option url_like) : M val :=
  (match url with
   | Some u =>
       let! thumbnail := getattr self "thumbnail" in
       setitem thumbnail "url" (VStr (str_url u))
   | None =>
       let! thumbnail := getattr self "thumbnail" in clear thumbnail
   end) >>
  ret (VRef self).

Definition remove_thumbnail (self : loc) : M val :=
  (let! d := new_dict in setattr self "thumbnail" d) >>
  ret (VRef self).

Definition add_field (self : loc) (name value : string) (inline : bool) : M val :=
  (let! fields := getattr self "fields" in
   let! record := new_dict in
   setitem record "name" (VStr name) >>
   setitem record "value" (VStr value) >>
   setitem record "inline" (VBool inline) >>
   append fields record) >>
  ret (VRef self).

Definition remove_field (self : loc) (index : Z) : M val :=
  try_except_pass
    (let! fields := getattr self "fields" in delitem fields index)
    IndexError >>
  ret (VRef self).

Definition from_dict (data : val) : M val :=
  let! self := alloc (OInstance ∅) in
  setattr self "colour" VNone >>
  (let! c := dict_get data "color" VNone in
   when (negb (is_None c))
     (let! raw := getitem data "color" in
      let! c := Colour_new raw in
      setattr self "colour" c)) >>
  (let! v := dict_get data "title" VNone in setattr self "title" v) >>
  (let! v := dict_get data "description" VNone in setattr self "description" v) >>
  (let! v := dict_get data "timestamp" VNone in setattr self "timestamp" v) >>
  (let! v := dict_get data "url" VNone in setattr self "url" v) >>
  (let! v := dict_get data "type" (VStr "rich") in setattr self "type" v) >>
  (let! dflt := new_dict in
   let! v := dict_get data "footer" dflt in setattr self "footer" v) >>
  (let! dflt := new_dict in
   let! v := dict_get data "image" dflt in setattr self "image" v) >>
  (let! dflt := new_dict in
   let! v := dict_get data "thumbnail" dflt in setattr self "thumbnail" v) >>
  (let! dflt := new_dict in
   let! v := dict_get data "author" dflt in setattr self "author" v) >>
  (let! dflt := new_list in
   let! v := dict_get data "fields" dflt in setattr self "fields" v) >>
  ret (VRef self).

(** The statement [if self.attr: embed[key] = self.attr] of [to_dict]. *)
Definition emit_attr (self : loc) (embed : val) (attr key : string) : M unit :=
  let! v := getattr self attr in
  let! b := py_bool v in
  when b (let! v := getattr self attr in setitem embed key v).

Definition to_dict (self : loc) : M val :=
  let! embed := new_dict in
  emit_attr self embed "title" "title" >>
  emit_attr self embed "description" "description" >>
  emit_attr self embed "url" "url" >>
  emit_attr self embed "author" "author" >>
  (let! v := getattr self "colour" in
   let! b := py_bool v in
   when b
     (let! v := getattr self "colour" in
      let! z := py_int v in
      setitem embed "color" (VInt z))) >>
  emit_attr self embed "footer" "footer" >>
  emit_attr self embed "image" "image" >>
  emit_attr self embed "thumbnail" "thumbnail" >>
  emit_attr self embed "fields" "fields" >>
  (let! t := getattr self "timestamp" in
   let! b := py_bool t in
   when (b && isinstance_datetime t)
     (let! t := getattr self "timestamp" in
      match t with
      | VDatetime d =>
          when (bool_decide (tzinfo d = None))
            (setattr self "timestamp" (VDatetime (astimezone d))) >>
          let! t := getattr self "timestamp" in
          match t with
          | VDatetime d => setitem embed "timestamp" (VStr (isoformat d))
          | _ => raise AttributeError
          end
      | _ => raise AttributeError
      end)) >>
  ret embed.

Definition copy (self : loc) : M val :=
  let! d := to_dict self in
  from_dict d.

(** ** What an embed looks like in the store *)

(** A value that is not a reference. *)
Definition scalar (v : val) : Prop :=
  match v with VRef _ => False | _ => True end.

(** The attributes of an instance built by [__init__] or by [from_dict]
    from a transport mapping, and kept by the mutators: the five plain
    attributes hold plain values, [colour] is [None] or a wrapper (of an
    integer within [0..0xFFFFFF], the only ones [Colour] builds), the four
    sub-structures are dicts and [fields] is a list. *)
Record embed_attrs (h : heap) (attrs : gmap string val) : Prop := {
  ea_title : ∃ v, attrs !! "title" = Some v ∧ scalar v;
  ea_description : ∃ v, attrs !! "description" = Some v ∧ scalar v;
  ea_url : ∃ v, attrs !! "url" = Some v ∧ scalar v;
  ea_timestamp : ∃ v, attrs !! "timestamp" = Some v ∧ scalar v;
  ea_type : ∃ v, attrs !! "type" = Some v ∧ scalar v;
  ea_colour : attrs !! "colour" = Some VNone ∨
              ∃ c, attrs !! "colour" = Some (VColour c)
                   ∧ in_colour_range (colour_value c) = true;
  ea_footer : ∃ l d, attrs !! "footer" = Some (VRef l) ∧ h !! l = Some (ODict d);
  ea_image : ∃ l d, attrs !! "image" = Some (VRef l) ∧ h !! l = Some (ODict d);
  ea_thumbnail : ∃ l d, attrs !! "thumbnail" = Some (VRef l) ∧ h !! l = Some (ODict d);
  ea_author : ∃ l d, attrs !! "author" = Some (VRef l) ∧ h !! l = Some (ODict d);
  ea_fields : ∃ l xs, attrs !! "fields" = Some (VRef l) ∧ h !! l = Some (OList xs)
}.

Definition is_embed (h : heap) (self : loc) : Prop :=
  ∃ attrs, h !! self = Some (OInstance attrs) ∧ embed_attrs h attrs.

(** A value whose reference, if it is one, points into the store. *)
Definition closed (h : heap) (v : val) : Prop :=
  match v with VRef l => (l < length h)%nat | _ => True end.

(** ** The transport mapping as a function of the attributes *)

(** The timestamp with the local zone attached when it had none. *)
Definition normalized (d : datetime) : datetime :=
  if bool_decide (tzinfo d = None) then astimezone d else d.

Definition emit (h : heap) (attrs : gmap string val) (attr key : string)
    (items : gmap string val) : gmap string val :=
  match attrs !! attr with
  | Some v => if truthy h v then <[key := v]> items else items
  | None => items
  end.

Definition emit_colour (attrs items : gmap string val) : gmap string val :=
  match attrs !! "colour" with
  | Some (VColour c) =>
      if negb (colour_value c =? 0) then <["color" := VInt (colour_value c)]> items
      else items
  | _ => items
  end.

Definition emit_timestamp (attrs items : gmap string val) : gmap string val :=
  match attrs !! "timestamp" with
  | Some (VDatetime d) => <["timestamp" := VStr (isoformat (normalized d))]> items
  | _ => items
  end.

Definition serialized (h : heap) (attrs : gmap string val) : gmap string val :=
  emit_timestamp attrs
    (emit h attrs "fields" "fields"
       (emit h attrs "thumbnail" "thumbnail"
          (emit h attrs "image" "image"
             (emit h attrs "footer" "footer"
                (emit_colour attrs
                   (emit h attrs "author" "author"
                      (emit h attrs "url" "url"
                         (emit h attrs "description" "description"
                            (emit h attrs "title" "title" ∅))))))))).

(** The attributes of the instance after [to_dict]. *)
Definition normalized_attrs (attrs : gmap string val) : gmap string val :=
  match attrs !! "timestamp" with
  | Some (VDatetime d) => <["timestamp" := VDatetime (normalized d)]> attrs
  | _ => attrs
  end.

(** ** The instance built from a transport mapping *)

Definition colour_of_transport (items : gmap string val) : val :=
  match items !! "color" with
  | Some (VInt z) => VColour (mkColour z)
  | Some (VBool b) => VColour (mkColour (Z.b2z b))
  | _ => VNone
  end.

(** The [color] entry, when there is one, is [None] or an integer within
    [0..0xFFFFFF]. *)
Definition colour_ok (items : gmap string val) : Prop :=
  match items !! "color" with
  | Some (VInt z) => in_colour_range z = true
  | Some (VStr _) | Some (VColour _) | Some (VDatetime _) | Some (VRef _) => False
  | _ => True
  end.

(** The attributes [from_dict] gives the instance it creates at reference
    [n]; the five default containers follow it in the store. *)
Definition deserialized (items : gmap string val) (n : nat) : gmap string val :=
  <["fields" := default (VRef (n + 5)) (items !! "fields")]>
    (<["author" := default (VRef (n + 4)) (items !! "author")]>
       (<["thumbnail" := default (VRef (n + 3)) (items !! "thumbnail")]>
          (<["image" := default (VRef (n + 2)) (items !! "image")]>
             (<["footer" := default (VRef (n + 1)) (items !! "footer")]>
                (<["type" := default (VStr "rich") (items !! "type")]>
                   (<["url" := default VNone (items !! "url")]>
                      (<["timestamp" := default VNone (items !! "timestamp")]>
                         (<["description" := default VNone (items !! "description")]>
                            (<["title" := default VNone (items !! "title")]>
                               (<["colour" := colour_of_transport items]> ∅)))))))))).

(** ** Observing an instance *)

(** The value bound to an attribute of the instance at [self]. *)
Definition attr_of (h : heap) (self : loc) (name : string) : option val :=
  match h !! self with
  | Some (OInstance attrs) => attrs !! name
  | _ => None
  end.

(** The dict, or the list, a value refers to. *)
Definition dict_at (h : heap) (v : val) : option (gmap string val) :=
  match v with
  | VRef l => match h !! l with Some (ODict d) => Some d | _ => None end
  | _ => None
  end.

Definition list_at (h : heap) (v : val) : option (list val) :=
  match v with
  | VRef l => match h !! l with Some (OList xs) => Some xs | _ => None end
  | _ => None
  end.

(** The contents of [self.footer], [self.image], ... and of [self.fields]. *)
Definition structure_of (h : heap) (self : loc) (name : string)
    : option (gmap string val) :=
  match attr_of h self name with
  | Some v => dict_at h v
  | None => None
  end.

Definition fields_of (h : heap) (self : loc) : option (list val) :=
  match attr_of h self "fields" with
  | Some v => list_at h v
  | None => None
  end.

(** An argument annotated [Colour | int] that [Colour] accepts: a wrapper,
    or an integer within [0..0xFFFFFF]. *)
Definition is_colour_arg (v : val) : bool :=
  match v with
  | VInt z => in_colour_range z
  | VColour c => in_colour_range (colour_value c)
  | _ => false
  end.

(** The wrapper [Colour(int(v))] of such an argument, [None] for [None]. *)
Definition wrapped (v : val) : val :=
  match v with
  | VInt z => VColour (mkColour z)
  | VColour c => VColour c
  | _ => VNone
  end.

(** The record [add_field] appends. *)
Definition field_record (name value : string) (inline : bool) : gmap string val :=
  <["inline" := VBool inline]>
    (<["value" := VStr value]> (<["name" := VStr name]> ∅)).

(** A check of [is_embed] that computes. *)
Definition attr_scalarb (attrs : gmap string val) (k : string) : bool :=
  match attrs !! k with
  | Some (VRef _) | None => false
  | Some _ => true
  end.

Definition attr_dictb (h : heap) (attrs : gmap string val) (k : string) : bool :=
  match attrs !! k with
  | Some (VRef l) => match h !! l with Some (ODict _) => true | _ => false end
  | _ => false
  end.

Definition attr_listb (h : heap) (attrs : gmap string val) (k : string) : bool :=
  match attrs !! k with
  | Some (VRef l) => match h !! l with Some (OList _) => true | _ => false end
  | _ => false
  end.

Definition attr_colourb (attrs : gmap string val) : bool :=
  match attrs !! "colour" with
  | Some VNone => true
  | Some (VColour c) => in_colour_range (colour_value c)
  | _ => false
  end.

Definition is_embedb (h : heap) (self : loc) : bool :=
  match h !! self with
  | Some (OInstance attrs) =>
      attr_scalarb attrs "title" && attr_scalarb attrs "description"
      && attr_scalarb attrs "url" && attr_scalarb attrs "timestamp"
      && attr_scalarb attrs "type" && attr_colourb attrs
      && attr_dictb h attrs "footer" && attr_dictb h attrs "image"
      && attr_dictb h attrs "thumbnail" && attr_dictb h attrs "author"
      && attr_listb h attrs "fields"
  | _ => false
  end.


(** The store after [copy], which is [from_dict] of [to_dict]. *)
Definition copied (h : heap) (e : loc) (attrs : gmap string val) : heap :=
  <[e := OInstance (normalized_attrs attrs)]> h
    ++ [ODict (serialized h attrs);
        OInstance (deserialized (serialized h attrs) (length h + 1));
        ODict ∅; ODict ∅; ODict ∅; ODict ∅; OList []].

(** The containers of [h] are containers of the same kind in [h']. *)
Definition same_kinds (h h' : heap) : Prop :=
  (∀ l d, h !! l = Some (ODict d) → ∃ d', h' !! l = Some (ODict d'))
  ∧ (∀ l xs, h !! l = Some (OList xs) → ∃ xs', h' !! l = Some (OList xs')).

(** ** What can be seen of an attribute *)

(** The attributes of the data model. *)
Definition embed_attributes : list string :=
  ["title"; "description"; "url"; "colour"; "type"; "footer"; "image";
   "thumbnail"; "author"; "fields"; "timestamp"].

(** The key of the transport mapping an attribute is emitted under. *)
Definition transport_key (k : string) : string :=
  if decide (k = "colour") then "color" else k.

(** A value as a reader sees it: a container by its contents. *)
Inductive view : Type :=
| ViewVal (v : val)
| ViewDict (d : gmap string val)
| ViewList (xs : list val).

Definition view_of (h : heap) (v : val) : view :=
  match v with
  | VRef l =>
      match h !! l with
      | Some (ODict d) => ViewDict d
      | Some (OList xs) => ViewList xs
      | _ => ViewVal v
      end
  | _ => ViewVal v
  end.

Definition observe (h : heap) (self : loc) (name : string) : option view :=
  view_of h <$> attr_of h self name.

(** The round trip in the words of the specification: every attribute
    that survives serialization is, on the instance built back from the
    mapping, what it is on [e]. *)
Definition roundtrip_reproduces (h : heap) (e : loc) : Prop :=
  ∀ d h1 items c h2 k,
    to_dict e h = (Ret (VRef d), h1) →
    h1 !! d = Some (ODict items) →
    from_dict (VRef d) h1 = (Ret (VRef c), h2) →
    k ∈ embed_attributes →
    is_Some (items !! transport_key k) →
    observe h2 c k = observe h2 e k.

(** The copy in the words of the specification: another instance with
    the non-empty attributes of [e], whose mutation by [add_field],
    [set_footer] or [set_author] leaves every attribute of [e] as it was. *)
Definition copy_independent (h : heap) (e : loc) : Prop :=
  ∀ c h1,
    copy e h = (Ret (VRef c), h1) →
    c ≠ e
    ∧ (∀ k v, k ∈ embed_attributes → attr_of h1 e k = Some v →
              truthy h1 v = true → observe h1 c k = observe h1 e k)
    ∧ (∀ name value inline r h2,
         add_field c name value inline h1 = (r, h2) →
         ∀ k, k ∈ embed_attributes → observe h2 e k = observe h1 e k)
    ∧ (∀ text icon_url r h2,
         set_footer c text icon_url h1 = (r, h2) →
         ∀ k, k ∈ embed_attributes → observe h2 e k = observe h1 e k)
    ∧ (∀ name url icon_url r h2,
         set_author c name url icon_url h1 = (r, h2) →
         ∀ k, k ∈ embed_attributes → observe h2 e k = observe h1 e k).



(** [set_colour] in the words of the specification: the call binds
    [_colour] to the wrapper of its argument and [colour] reads as before. *)
Definition set_colour_binds_backing (h : heap) (e : loc) (v : val) : Prop :=
  ∃ h', set_colour e v h = (Ret (VRef e), h')
        ∧ attr_of h' e "_colour" = Some (wrapped v)
        ∧ attr_of h' e "colour" = attr_of h e "colour".


End Embed.

(** ** Invariants *)

(** The call [m] on the embed at [self] returns [self] and leaves an
    embed there. *)
Definition keeps_embed (h : heap) (self : loc) (m : M val) : Prop :=
  ∃ h', m h = (Ret (VRef self), h') ∧ is_embed h' self.

(** A transport mapping of the shape [from_dict] is written for: plain
    values under the five plain keys, [None] or an integer within
    [0..0xFFFFFF] under [color],
    a dict under each of footer, image, thumbnail and author, a list under
    fields; every key is optional. *)
Definition plain_or_absent (items : gmap string val) (k : string) : Prop :=
  match items !! k with Some v => scalar v | None => True end.

Definition dict_or_absent (h : heap) (items : gmap string val) (k : string) : Prop :=
  match items !! k with
  | Some v => ∃ l d, v = VRef l ∧ h !! l = Some (ODict d)
  | None => True
  end.

Definition list_or_absent (h : heap) (items : gmap string val) (k : string) : Prop :=
  match items !! k with
  | Some v => ∃ l xs, v = VRef l ∧ h !! l = Some (OList xs)
  | None => True
  end.

Record transport_ok (h : heap) (items : gmap string val) : Prop := {
  to_plain : ∀ k, k ∈ ["title"; "description"; "url"; "timestamp"; "type"] →
                  plain_or_absent items k;
  to_color : colour_ok items;
  to_dicts : ∀ k, k ∈ ["footer"; "image"; "thumbnail"; "author"] →
                  dict_or_absent h items k;
  to_fields : list_or_absent h items "fields"
}.

(** ** Sample data *)

(** A host in the UTC zone. Of [isoformat] and of [int] on strings only
    what the samples below use is given: the rendering of the epoch. *)
Definition sample_host : Host :=
  {| local_utcoffset := fun _ => 0;
     utcoffset_at := fun _ => 0;
     isoformat := fun d =>
       match tzinfo d with
       | Some _ => "1970-01-01T00:00:00+00:00"
       | None => "1970-01-01T00:00:00"
       end;
     int_of_str := fun _ => None |}.

(** The store a program leaves when run from the empty store. *)
Definition store_after {A} (m : M A) : heap := snd (m []).

(** [e = Embed(title="Hi")] followed by
    [e.add_field(name="A", value="B")] and
    [e.add_field(name="C", value="D", inline=False)]; [e] is at reference 0. *)
Definition two_fields : heap :=
  store_after
    (let! e := @Embed sample_host (Some "Hi") None VNone VNone None None in
     add_field 0 "A" "B" true >>
     add_field 0 "C" "D" false).

(** [e = Embed(timestamp=t)] with [t] the epoch in UTC, followed by
    [e.add_field(name="A", value="B")]; [e] is at reference 0. *)
Definition epoch : datetime := {| wall := 0; tzinfo := Some 0 |}.

Definition stamped : heap :=
  store_after
    (let! e := @Embed sample_host None None VNone VNone None (Some epoch) in
     add_field 0 "A" "B" true).

(** [e = Embed(timestamp=t)] with [t] a naive date-time. *)
Definition naive_stamped : heap :=
  store_after
    (@Embed sample_host None None VNone VNone None
       (Some {| wall := 0; tzinfo := None |})).

(** [Embed()] *)
Definition blank : heap :=
  store_after (@Embed sample_host None None VNone VNone None None).

(** [Embed().set_footer(text="a", icon_url="b")]; the embed is at
    reference 0. *)
Definition with_footer : heap :=
  store_after
    (let! e := @Embed sample_host None None VNone VNone None None in
     set_footer 0 (Some "a") (Some (UStr "b"))).

(** [e = Embed(title="Hi")] followed by
    [e.add_field(name="A", value="B")]; [e] is at reference 0. *)
Definition one_field : heap :=
  store_after
    (let! e := @Embed sample_host (Some "Hi") None VNone VNone None None in
     add_field 0 "A" "B" true).

(** [Embed(title="Hi", colour=5)]; the embed is at reference 0. *)
Definition coloured : heap :=
  store_after (@Embed sample_host (Some "Hi") None (VInt 5) VNone None None).


(** A transport mapping, at reference 1, with a title, colour 0 and the
    (empty) list at reference 0 as its fields. *)
Definition sample_mapping : gmap string val :=
  <["fields" := VRef 0%nat]> (<["title" := VStr "Hi"]> (<["color" := VInt 0]> ∅)).

Definition mapping_store : heap := [OList []; ODict sample_mapping].

(** A mapping, at reference 1, whose [fields] is a dict. *)
Definition malformed_mapping : gmap string val := <["fields" := VRef 0%nat]> ∅.

Definition malformed_store : heap := [ODict ∅; ODict malformed_mapping].

(** * Proofs *)

Section Proofs.

Context {host : Host}.

(** ** Stepping through a computation *)

Lemma bind_step {A B} (m : M A) (k : A -> M B) h a h' :
  m h = (Ret a, h') → bind m k h = k a h'.
Proof. intros E. unfold bind. by rewrite E. Qed.

Lemma lookup_top_eq (h : heap) o n : length h = n → (h ++ [o]) !! n = Some o.
Proof. intros <-. by rewrite list_lookup_middle. Qed.

Lemma insert_top_eq (h : heap) o o' n :
  length h = n → <[n := o']> (h ++ [o]) = h ++ [o'].
Proof.
  intros <-. rewrite insert_app_r_alt by lia. by rewrite Nat.sub_diag.
Qed.

Lemma lookup_top (h : heap) o : (h ++ [o]) !! length h = Some o.
Proof. by apply lookup_top_eq. Qed.

Lemma insert_top (h : heap) o o' : <[length h := o']> (h ++ [o]) = h ++ [o'].
Proof. by apply insert_top_eq. Qed.

Lemma lookup_below (h t : heap) l o : h !! l = Some o → (h ++ t) !! l = Some o.
Proof. intros E. rewrite lookup_app_l; [done | by eapply lookup_lt_Some]. Qed.

Lemma insert_below (h t : heap) l o o' :
  h !! l = Some o → <[l := o']> (h ++ t) = <[l := o']> h ++ t.
Proof. intros E. apply insert_app_l. by eapply lookup_lt_Some. Qed.

Lemma truthy_app h t v : closed h v → truthy (h ++ t) v = truthy h v.
Proof.
  destruct v; simpl; try done. intros Hl.
  by rewrite lookup_app_l.
Qed.

Lemma scalar_closed h v : scalar v → closed h v.
Proof. by destruct v. Qed.

Lemma ref_closed (h : heap) l o : h !! l = Some o → closed h (VRef l).
Proof. simpl. by apply lookup_lt_Some. Qed.

Lemma new_dict_spec h : new_dict h = (Ret (VRef (length h)), h ++ [ODict ∅]).
Proof. reflexivity. Qed.

Lemma new_list_spec h : new_list h = (Ret (VRef (length h)), h ++ [OList []]).
Proof. reflexivity. Qed.

Lemma emit_attr_spec h self attrs attr key items :
  h !! self = Some (OInstance attrs) →
  (∃ v, attrs !! attr = Some v ∧ closed h v) →
  emit_attr self (VRef (length h)) attr key (h ++ [ODict items])
  = (Ret tt, h ++ [ODict (emit h attrs attr key items)]).
Proof.
  intros Hs (v & Hv & Hc).
  unfold emit_attr, emit, bind, getattr, py_bool, when, setitem.
  rewrite (lookup_below _ _ _ _ Hs), Hv, (truthy_app _ _ _ Hc).
  destruct (truthy h v); [| done].
  by rewrite (lookup_below _ _ _ _ Hs), Hv, lookup_top, insert_top.
Qed.

Lemma embed_attrs_closed h attrs k :
  embed_attrs h attrs →
  k ∈ ["title"; "description"; "url"; "timestamp"; "type"; "colour";
       "footer"; "image"; "thumbnail"; "author"; "fields"] →
  ∃ v, attrs !! k = Some v ∧ closed h v.
Proof.
  intros [(v1 & ? & ?) (v2 & ? & ?) (v3 & ? & ?) (v4 & ? & ?) (v5 & ? & ?)
          Hc (l1 & ? & ? & ?) (l2 & ? & ? & ?) (l3 & ? & ? & ?)
          (l4 & ? & ? & ?) (l5 & ? & ? & ?)] Hk.
  repeat (apply elem_of_cons in Hk as [-> | Hk]);
    [ | | | | | | | | | | | by apply elem_of_nil in Hk ];
    eauto using scalar_closed, ref_closed.
  destruct Hc as [? | (c & ? & ?)]; eexists; split; eauto; done.
Qed.

Lemma to_dict_spec h self attrs :
  h !! self = Some (OInstance attrs) →
  embed_attrs h attrs →
  to_dict self h
  = (Ret (VRef (length h)),
     <[self := OInstance (normalized_attrs attrs)]> h
       ++ [ODict (serialized h attrs)]).
Proof.
  intros Hs Ha.
  assert (Hcl : ∀ k, k ∈ ["title"; "description"; "url"; "timestamp"; "type";
                          "colour"; "footer"; "image"; "thumbnail"; "author";
                          "fields"] → ∃ v, attrs !! k = Some v ∧ closed h v)
    by (intros k; by apply embed_attrs_closed).
  unfold to_dict, serialized.
  rewrite (bind_step _ _ _ _ _ (new_dict_spec h)).
  do 4 (erewrite bind_step;
        [| apply (emit_attr_spec h self attrs); [done | apply Hcl; repeat constructor]]).
  set (i4 := emit h attrs "author" "author" _).
  erewrite (bind_step _ _ _ tt (h ++ [ODict (emit_colour attrs i4)])); cycle 1.
  { unfold bind, getattr, py_bool, when, emit_colour, setitem, py_int, ret.
    unfold truthy, Colour_bool, Colour_int.
    rewrite (lookup_below _ _ _ _ Hs).
    destruct (ea_colour _ _ Ha) as [E | (c & E & _)]; rewrite E; simpl; [done |].
    destruct (colour_value c =? 0); simpl; [done |].
    by rewrite (lookup_below _ _ _ _ Hs), E, lookup_top, insert_top. }
  do 4 (erewrite bind_step;
        [| apply (emit_attr_spec h self attrs); [done | apply Hcl; repeat constructor]]).
  set (i9 := emit h attrs "fields" "fields" _).
  destruct (ea_timestamp _ _ Ha) as (t & Et & Hsc).
  unfold bind at 1. unfold bind at 1. unfold bind at 1.
  unfold getattr at 1, py_bool, ret, emit_timestamp, normalized_attrs.
  rewrite (lookup_below _ _ _ _ Hs), Et.
  destruct t as [| | | | | d |]; simpl; rewrite ?andb_false_r; simpl;
    try (by rewrite (list_insert_id _ _ _ Hs)).
  unfold bind, getattr, when, setattr, setitem, normalized.
  rewrite (lookup_below _ _ _ _ Hs), Et.
  destruct (bool_decide (tzinfo d = None)).
  - rewrite (lookup_below _ _ _ _ Hs). simpl.
    rewrite (insert_below _ _ _ _ _ Hs).
    assert (Hs' : <[self := OInstance (<["timestamp" := VDatetime (astimezone d)]> attrs)]> h
                  !! self
                  = Some (OInstance (<["timestamp" := VDatetime (astimezone d)]> attrs))).
    { apply list_lookup_insert_eq. by eapply lookup_lt_Some. }
    rewrite (lookup_below _ _ _ _ Hs'), lookup_insert_eq.
    rewrite (lookup_top_eq _ _ (length h)) by apply length_insert.
    by rewrite (insert_top_eq _ _ _ (length h)) by apply length_insert.
  - simpl. rewrite (lookup_below _ _ _ _ Hs), Et, lookup_top, insert_top.
    rewrite (insert_id attrs "timestamp" _ Et).
    by rewrite (list_insert_id _ _ _ Hs).
Qed.

Lemma setattr_new (H : heap) a rest name v :
  setattr (length H) name v (H ++ OInstance a :: rest)
  = (Ret tt, H ++ OInstance (<[name := v]> a) :: rest).
Proof.
  unfold setattr. rewrite list_lookup_middle by done.
  rewrite insert_app_r_alt by lia. by rewrite Nat.sub_diag.
Qed.

Lemma dict_get_below (H t : heap) d items key dflt :
  H !! d = Some (ODict items) →
  dict_get (VRef d) key dflt (H ++ t) = (Ret (default dflt (items !! key)), H ++ t).
Proof. intros E. unfold dict_get. by rewrite (lookup_below _ _ _ _ E). Qed.

Lemma new_dict_after (H : heap) a rest :
  new_dict (H ++ OInstance a :: rest)
  = (Ret (VRef (length H + S (length rest))),
     H ++ OInstance a :: (rest ++ [ODict ∅])).
Proof.
  rewrite new_dict_spec, length_app. simpl. by rewrite <- app_assoc.
Qed.

Lemma new_list_after (H : heap) a rest :
  new_list (H ++ OInstance a :: rest)
  = (Ret (VRef (length H + S (length rest))),
     H ++ OInstance a :: (rest ++ [OList []])).
Proof.
  rewrite new_list_spec, length_app. simpl. by rewrite <- app_assoc.
Qed.

Lemma from_dict_spec (H : heap) d items :
  H !! d = Some (ODict items) →
  colour_ok items →
  from_dict (VRef d) H
  = (Ret (VRef (length H)),
     H ++ [OInstance (deserialized items (length H));
           ODict ∅; ODict ∅; ODict ∅; ODict ∅; OList []]).
Proof.
  intros Hd Hc. unfold from_dict.
  rewrite (bind_step (alloc (OInstance ∅)) _ H (length H) (H ++ [OInstance ∅]))
    by done.
  rewrite (bind_step _ _ _ _ _ (setattr_new _ _ _ _ _)).
  erewrite (bind_step _ _ _ tt
    (H ++ [OInstance (<["colour" := colour_of_transport items]> ∅)])); cycle 1.
  { unfold bind at 1. rewrite (dict_get_below _ _ _ _ _ _ Hd).
    unfold colour_ok, colour_of_transport, getitem, bind, Colour_new, ret in *.
    destruct (items !! "color") as [[]|] eqn:E; simpl; try done;
      rewrite ?(lookup_below _ _ _ _ Hd), ?E, ?Hc, ?setattr_new,
        ?insert_insert_eq;
      done. }
  do 5 (erewrite bind_step;
        [| unfold bind at 1; rewrite (dict_get_below _ _ _ _ _ _ Hd);
           apply setattr_new]).
  do 4 (erewrite bind_step;
        [| unfold bind at 1; rewrite new_dict_after;
           unfold bind at 1; rewrite (dict_get_below _ _ _ _ _ _ Hd);
           apply setattr_new]).
  erewrite bind_step;
        [| unfold bind at 1; rewrite new_list_after;
           unfold bind at 1; rewrite (dict_get_below _ _ _ _ _ _ Hd);
           apply setattr_new].
  reflexivity.
Qed.

(** ** Reading the transport mapping *)

Lemma lookup_emit_ne h attrs attr key items k :
  key ≠ k → emit h attrs attr key items !! k = items !! k.
Proof.
  intros Hne. unfold emit. destruct (attrs !! attr); [| done].
  destruct (truthy h v); [| done]. by rewrite lookup_insert_ne.
Qed.

Lemma lookup_emit_eq h attrs attr key items :
  items !! key = None →
  emit h attrs attr key items !! key
  = match attrs !! attr with
    | Some v => if truthy h v then Some v else None
    | None => None
    end.
Proof.
  intros Hn. unfold emit. destruct (attrs !! attr); [| done].
  destruct (truthy h v); [| done]. by rewrite lookup_insert_eq.
Qed.

Lemma lookup_emit_colour_ne attrs items k :
  "color" ≠ k → emit_colour attrs items !! k = items !! k.
Proof.
  intros Hne. unfold emit_colour.
  destruct (attrs !! "colour") as [[]|]; try done.
  destruct (negb _); [| done]. by rewrite lookup_insert_ne.
Qed.

Lemma lookup_emit_timestamp_ne attrs items k :
  "timestamp" ≠ k → emit_timestamp attrs items !! k = items !! k.
Proof.
  intros Hne. unfold emit_timestamp.
  destruct (attrs !! "timestamp") as [[]|]; try done.
  by rewrite lookup_insert_ne.
Qed.

Ltac skip_emits :=
  repeat first
    [ rewrite lookup_emit_ne by done
    | rewrite lookup_emit_colour_ne by done
    | rewrite lookup_emit_timestamp_ne by done ].

(** An attribute emitted under its own name is there exactly when it is
    truthy, with the value it has on the instance. *)
Lemma serialized_lookup h attrs k :
  k ∈ ["title"; "description"; "url"; "author"; "footer"; "image";
       "thumbnail"; "fields"] →
  serialized h attrs !! k
  = match attrs !! k with
    | Some v => if truthy h v then Some v else None
    | None => None
    end.
Proof.
  intros Hk. unfold serialized.
  repeat (apply elem_of_cons in Hk as [-> | Hk]);
    [ | | | | | | | | by apply elem_of_nil in Hk ];
    skip_emits; rewrite lookup_emit_eq; try done; by skip_emits.
Qed.

Lemma serialized_lookup_color h attrs :
  serialized h attrs !! "color"
  = match attrs !! "colour" with
    | Some (VColour c) =>
        if negb (colour_value c =? 0) then Some (VInt (colour_value c)) else None
    | _ => None
    end.
Proof.
  unfold serialized. skip_emits. unfold emit_colour.
  destruct (attrs !! "colour") as [[]|]; skip_emits; try done.
  destruct (negb _); [by rewrite lookup_insert_eq | by skip_emits].
Qed.

Lemma serialized_lookup_timestamp h attrs :
  serialized h attrs !! "timestamp"
  = match attrs !! "timestamp" with
    | Some (VDatetime d) => Some (VStr (isoformat (normalized d)))
    | _ => None
    end.
Proof.
  unfold serialized, emit_timestamp.
  destruct (attrs !! "timestamp") as [[]|]; skip_emits; try done.
  by rewrite lookup_insert_eq.
Qed.

Lemma serialized_lookup_type h attrs : serialized h attrs !! "type" = None.
Proof. unfold serialized. by skip_emits. Qed.

(** Every entry of the mapping comes from one of the ten statements. *)
Lemma serialized_inv h attrs k v :
  serialized h attrs !! k = Some v →
  (k ∈ ["title"; "description"; "url"; "author"; "footer"; "image";
        "thumbnail"; "fields"] ∧ attrs !! k = Some v ∧ truthy h v = true)
  ∨ (k = "color" ∧ ∃ c, attrs !! "colour" = Some (VColour c) ∧
       colour_value c ≠ 0 ∧ v = VInt (colour_value c))
  ∨ (k = "timestamp" ∧ ∃ d, attrs !! "timestamp" = Some (VDatetime d) ∧
       v = VStr (isoformat (normalized d))).
Proof.
  intros E.
  destruct (decide (k = "timestamp")) as [-> | N1].
  { right; right. split; [done |]. rewrite serialized_lookup_timestamp in E.
    destruct (attrs !! "timestamp") as [[]|]; try done. eexists; split; [done |].
    congruence. }
  destruct (decide (k = "color")) as [-> | N2].
  { right; left. split; [done |]. rewrite serialized_lookup_color in E.
    destruct (attrs !! "colour") as [[| | | | c | |]|]; try done.
    destruct (colour_value c =? 0) eqn:Ez; simpl in E; [done |].
    exists c. split; [done |]. split; [by apply Z.eqb_neq | congruence]. }
  left.
  assert (Hk : k ∈ ["title"; "description"; "url"; "author"; "footer"; "image";
                    "thumbnail"; "fields"]).
  { unfold serialized in E.
    rewrite lookup_emit_timestamp_ne in E by done.
    repeat match type of E with
    | emit _ _ ?a ?a _ !! k = _ =>
        destruct (decide (a = k)) as [<- | ?];
          [ repeat constructor | rewrite lookup_emit_ne in E by done ]
    | emit_colour _ _ !! k = _ => rewrite lookup_emit_colour_ne in E by done
    end.
    by rewrite lookup_empty in E. }
  split; [done |]. rewrite (serialized_lookup _ _ _ Hk) in E.
  destruct (attrs !! k) as [w|]; [| done].
  destruct (truthy h w) eqn:Et; [| done]. by inversion E; subst.
Qed.

(** ** Reading and writing objects of the store *)

Lemma getattr_spec (h : heap) self attrs name v :
  h !! self = Some (OInstance attrs) → attrs !! name = Some v →
  getattr self name h = (Ret v, h).
Proof. intros Hs Hv. unfold getattr. by rewrite Hs, Hv. Qed.

Lemma setattr_spec (h : heap) self attrs name v :
  h !! self = Some (OInstance attrs) →
  setattr self name v h = (Ret tt, <[self := OInstance (<[name := v]> attrs)]> h).
Proof. intros Hs. unfold setattr. by rewrite Hs. Qed.

Lemma setitem_spec (h : heap) l d key v :
  h !! l = Some (ODict d) →
  setitem (VRef l) key v h = (Ret tt, <[l := ODict (<[key := v]> d)]> h).
Proof. intros Hl. unfold setitem. by rewrite Hl. Qed.

Lemma clear_dict_spec (h : heap) l d :
  h !! l = Some (ODict d) → clear (VRef l) h = (Ret tt, <[l := ODict ∅]> h).
Proof. intros Hl. unfold clear. by rewrite Hl. Qed.

Lemma append_spec (h : heap) l xs v :
  h !! l = Some (OList xs) →
  append (VRef l) v h = (Ret tt, <[l := OList (xs ++ [v])]> h).
Proof. intros Hl. unfold append. by rewrite Hl. Qed.

Lemma lookup_update_eq (h : heap) l o o' :
  h !! l = Some o → <[l := o']> h !! l = Some o'.
Proof. intros Hl. apply list_lookup_insert_eq. by eapply lookup_lt_Some. Qed.

Lemma lookup_update_ne (h : heap) l l' o' :
  l ≠ l' → <[l := o']> h !! l' = h !! l'.
Proof. intros Hne. by apply list_lookup_insert_ne. Qed.

Lemma update_update (h : heap) l o o' :
  <[l := o']> (<[l := o]> h) = <[l := o']> h.
Proof. apply list_insert_insert_eq. Qed.

(** An instance and a container never share a reference. *)
Lemma instance_ne_dict (h : heap) self attrs l d :
  h !! self = Some (OInstance attrs) → h !! l = Some (ODict d) → l ≠ self.
Proof. intros Hs Hl ->. congruence. Qed.

Lemma instance_ne_list (h : heap) self attrs l xs :
  h !! self = Some (OInstance attrs) → h !! l = Some (OList xs) → l ≠ self.
Proof. intros Hs Hl ->. congruence. Qed.

Lemma delitem_out_of_range (h : heap) l xs index :
  h !! l = Some (OList xs) →
  index >= Z.of_nat (length xs) ∨ index < - Z.of_nat (length xs) →
  delitem (VRef l) index h = (Raise IndexError, h).
Proof.
  intros Hl Hr. unfold delitem. rewrite Hl. simpl.
  rewrite decide_False by lia. by rewrite decide_False by lia.
Qed.

Lemma delitem_in_range (h : heap) l xs index :
  h !! l = Some (OList xs) →
  - Z.of_nat (length xs) <= index < Z.of_nat (length xs) →
  delitem (VRef l) index h
  = (Ret tt,
     <[l := OList (delete (Z.to_nat (index mod Z.of_nat (length xs))) xs)]> h).
Proof.
  intros Hl Hr. unfold delitem. rewrite Hl. simpl.
  destruct (decide (0 <= index < Z.of_nat (length xs))) as [Hp | Hn].
  - by rewrite Z.mod_small.
  - rewrite decide_True by lia.
    replace (index mod Z.of_nat (length xs)) with (index + Z.of_nat (length xs));
      [done |].
    apply Z.mod_unique with (q := -1); lia.
Qed.

Lemma remove_field_out_of_range (h : heap) self attrs l xs index :
  h !! self = Some (OInstance attrs) →
  attrs !! "fields" = Some (VRef l) →
  h !! l = Some (OList xs) →
  index >= Z.of_nat (length xs) ∨ index < - Z.of_nat (length xs) →
  remove_field self index h = (Ret (VRef self), h).
Proof.
  intros Hs Hf Hl Hr. unfold remove_field, bind, try_except_pass.
  rewrite (getattr_spec _ _ _ _ _ Hs Hf).
  by rewrite (delitem_out_of_range _ _ _ _ Hl Hr).
Qed.

Lemma remove_field_in_range (h : heap) self attrs l xs index :
  h !! self = Some (OInstance attrs) →
  attrs !! "fields" = Some (VRef l) →
  h !! l = Some (OList xs) →
  - Z.of_nat (length xs) <= index < Z.of_nat (length xs) →
  remove_field self index h
  = (Ret (VRef self),
     <[l := OList (delete (Z.to_nat (index mod Z.of_nat (length xs))) xs)]> h).
Proof.
  intros Hs Hf Hl Hr. unfold remove_field, bind, try_except_pass.
  rewrite (getattr_spec _ _ _ _ _ Hs Hf).
  by rewrite (delitem_in_range _ _ _ _ Hl Hr).
Qed.

Lemma fields_of_update (h : heap) self attrs l xs ys :
  h !! self = Some (OInstance attrs) →
  attrs !! "fields" = Some (VRef l) →
  h !! l = Some (OList xs) →
  fields_of (<[l := OList ys]> h) self = Some ys.
Proof.
  intros Hs Hf Hl. unfold fields_of, attr_of, list_at.
  rewrite lookup_update_ne by (by eapply instance_ne_list).
  rewrite Hs, Hf. by rewrite (lookup_update_eq _ _ _ _ Hl).
Qed.

Lemma fields_of_inv (h : heap) self xs :
  is_embed h self → fields_of h self = Some xs →
  ∃ attrs l, h !! self = Some (OInstance attrs) ∧
             attrs !! "fields" = Some (VRef l) ∧ h !! l = Some (OList xs).
Proof.
  intros (attrs & Hs & Ha) Hf. destruct (ea_fields _ _ Ha) as (l & ys & E & Hl).
  unfold fields_of, attr_of, list_at in Hf. rewrite Hs, E, Hl in Hf.
  exists attrs, l. by simplify_eq.
Qed.

Lemma attr_scalarb_sound (attrs : gmap string val) k :
  attr_scalarb attrs k = true → ∃ v, attrs !! k = Some v ∧ scalar v.
Proof.
  unfold attr_scalarb. destruct (attrs !! k) as [v|]; [| done].
  intros Hb. exists v. split; [done |]. by destruct v.
Qed.

Lemma attr_dictb_sound (h : heap) (attrs : gmap string val) k :
  attr_dictb h attrs k = true →
  ∃ l d, attrs !! k = Some (VRef l) ∧ h !! l = Some (ODict d).
Proof.
  unfold attr_dictb. destruct (attrs !! k) as [[| | | | | | l]|]; try done.
  destruct (h !! l) as [[d | |]|] eqn:E; try done. intros _. exists l, d. by split.
Qed.

Lemma attr_listb_sound (h : heap) (attrs : gmap string val) k :
  attr_listb h attrs k = true →
  ∃ l xs, attrs !! k = Some (VRef l) ∧ h !! l = Some (OList xs).
Proof.
  unfold attr_listb. destruct (attrs !! k) as [[| | | | | | l]|]; try done.
  destruct (h !! l) as [[| xs |]|] eqn:E; try done. intros _. exists l, xs. by split.
Qed.

Lemma attr_colourb_sound (attrs : gmap string val) :
  attr_colourb attrs = true →
  attrs !! "colour" = Some VNone
  ∨ ∃ c, attrs !! "colour" = Some (VColour c)
         ∧ in_colour_range (colour_value c) = true.
Proof.
  unfold attr_colourb. destruct (attrs !! "colour") as [[| | | | c | |]|]; try done.
  - by left.
  - intros Hr. right. by exists c.
Qed.

Lemma is_embedb_sound (h : heap) self : is_embedb h self = true → is_embed h self.
Proof.
  unfold is_embedb, is_embed. destruct (h !! self) as [[| | attrs]|]; try done.
  intros Hb. repeat (apply andb_prop in Hb as [Hb ?]).
  exists attrs. split; [done |].
  split; auto using attr_scalarb_sound, attr_dictb_sound, attr_listb_sound,
    attr_colourb_sound.
Qed.

Lemma add_field_spec (h : heap) self attrs l xs name value inline :
  h !! self = Some (OInstance attrs) →
  attrs !! "fields" = Some (VRef l) →
  h !! l = Some (OList xs) →
  add_field self name value inline h
  = (Ret (VRef self),
     <[l := OList (xs ++ [VRef (length h)])]> h
       ++ [ODict (field_record name value inline)]).
Proof.
  intros Hs Hf Hl. unfold add_field.
  erewrite bind_step; [reflexivity |].
  rewrite (bind_step _ _ _ _ _ (getattr_spec _ _ _ _ _ Hs Hf)).
  rewrite (bind_step _ _ _ _ _ (new_dict_spec h)).
  do 3 (erewrite bind_step; [| rewrite (setitem_spec _ _ _ _ _ (lookup_top _ _));
                               by rewrite insert_top]).
  rewrite (append_spec _ _ _ _ (lookup_below _ _ _ _ Hl)).
  by rewrite (insert_below _ _ _ _ _ Hl).
Qed.

(** ** Adding and removing fields *)

(** C6: on an embed whose fields sequence has length n, [remove_field]
    with an out-of-range index (i >= n, or i < -n) returns the same
    instance without raising and leaves the whole store, hence the fields
    sequence, exactly as it was. *)
Theorem remove_field_out_of_range_noop (h : heap) self xs index :
  is_embed h self →
  fields_of h self = Some xs →
  index >= Z.of_nat (length xs) ∨ index < - Z.of_nat (length xs) →
  remove_field self index h = (Ret (VRef self), h)
  ∧ fields_of h self = Some xs.
Proof.
  intros He Hf Hr. split; [| done].
  destruct (fields_of_inv _ _ _ He Hf) as (attrs & l & Hs & Ef & Hl).
  by eapply remove_field_out_of_range.
Qed.

(** C10: [remove_field] reads a negative index from the end. On an embed
    with n >= 1 fields and -n <= i <= -1 it deletes the element at position
    n + i; and for any index, the sequence is left unchanged exactly when
    i >= n or i < -n. *)
Theorem remove_field_negative_index (h : heap) self xs :
  is_embed h self →
  fields_of h self = Some xs →
  (1 <= length xs)%nat →
  (∀ index, - Z.of_nat (length xs) <= index <= -1 →
     ∃ h', remove_field self index h = (Ret (VRef self), h')
           ∧ fields_of h' self
             = Some (delete (Z.to_nat (Z.of_nat (length xs) + index)) xs))
  ∧ (∀ index h' r, remove_field self index h = (r, h') →
       fields_of h' self = Some xs
       ↔ index >= Z.of_nat (length xs) ∨ index < - Z.of_nat (length xs)).
Proof.
  intros He Hf Hn.
  destruct (fields_of_inv _ _ _ He Hf) as (attrs & l & Hs & Ef & Hl).
  split.
  - intros index Hr. eexists. split.
    + apply (remove_field_in_range _ _ _ _ _ _ Hs Ef Hl). lia.
    + rewrite (fields_of_update _ _ _ _ _ _ Hs Ef Hl). do 3 f_equal.
      symmetry. apply Z.mod_unique with (q := -1); lia.
  - intros index h' r Hrun. split.
    + intros Hsame.
      destruct (decide (- Z.of_nat (length xs) <= index < Z.of_nat (length xs)))
        as [Hin | Hout]; [| lia].
      rewrite (remove_field_in_range _ _ _ _ _ _ Hs Ef Hl Hin) in Hrun.
      injection Hrun as _ <-.
      rewrite (fields_of_update _ _ _ _ _ _ Hs Ef Hl) in Hsame.
      injection Hsame as Hsame. apply (f_equal length) in Hsame.
      rewrite length_delete in Hsame; [lia |].
      apply lookup_lt_is_Some_2.
      pose proof (Z.mod_pos_bound index (Z.of_nat (length xs))). lia.
    + intros Hout.
      rewrite (remove_field_out_of_range _ _ _ _ _ _ Hs Ef Hl Hout) in Hrun.
      by injection Hrun as _ <-.
Qed.

(** C7: on an embed with fields sequence F, [add_field] followed by
    [remove_field] at index len(F) gives back exactly F; every object that
    was in the store, the field records of F among them, is as before. *)
Theorem add_then_remove_field (h : heap) self F name value inline :
  is_embed h self →
  fields_of h self = Some F →
  ∃ h1 h2 r,
    add_field self name value inline h = (Ret (VRef self), h1)
    ∧ fields_of h1 self = Some (F ++ [r])
    ∧ remove_field self (Z.of_nat (length F)) h1 = (Ret (VRef self), h2)
    ∧ fields_of h2 self = Some F
    ∧ ∀ l o, h !! l = Some o → h2 !! l = Some o.
Proof.
  intros He Hf.
  destruct (fields_of_inv _ _ _ He Hf) as (attrs & l & Hs & Ef & Hl).
  assert (Hne : l ≠ self) by apply (instance_ne_list _ _ _ _ _ Hs Hl).
  set (h1 := <[l := OList (F ++ [VRef (length h)])]> h
             ++ [ODict (field_record name value inline)]).
  assert (Hs1 : h1 !! self = Some (OInstance attrs)).
  { apply lookup_below. by rewrite lookup_update_ne. }
  assert (Hl1 : h1 !! l = Some (OList (F ++ [VRef (length h)]))).
  { apply lookup_below. by eapply lookup_update_eq. }
  assert (Hrm : remove_field self (Z.of_nat (length F)) h1
                = (Ret (VRef self), h ++ [ODict (field_record name value inline)])).
  { rewrite (remove_field_in_range _ _ _ _ _ _ Hs1 Ef Hl1)
      by (rewrite length_app; simpl; lia).
    rewrite length_app. simpl.
    rewrite Z.mod_small by lia. rewrite Nat2Z.id, delete_middle, app_nil_r.
    unfold h1. rewrite (insert_below _ _ _ _ _ (lookup_update_eq _ _ _ _ Hl)).
    by rewrite update_update, (list_insert_id _ _ _ Hl). }
  exists h1, (h ++ [ODict (field_record name value inline)]), (VRef (length h)).
  split; [apply (add_field_spec _ _ _ _ _ _ _ _ Hs Ef Hl) |].
  split; [by unfold fields_of, attr_of, list_at; rewrite Hs1, Ef, Hl1 |].
  split; [done |].
  split.
  - unfold fields_of, attr_of, list_at.
    by rewrite (lookup_below _ _ _ _ Hs), Ef, (lookup_below _ _ _ _ Hl).
  - intros l' o Ho. by apply lookup_below.
Qed.

(** ** Footer and image *)

Lemma structure_of_update (h : heap) self attrs name l d d' :
  h !! self = Some (OInstance attrs) →
  attrs !! name = Some (VRef l) →
  h !! l = Some (ODict d) →
  structure_of (<[l := ODict d']> h) self name = Some d'.
Proof.
  intros Hs Hf Hl. unfold structure_of, attr_of, dict_at.
  rewrite lookup_update_ne by apply (instance_ne_dict _ _ _ _ _ Hs Hl).
  rewrite Hs, Hf. by rewrite (lookup_update_eq _ _ _ _ Hl).
Qed.

Lemma set_footer_text_icon (h : heap) self attrs l d a b :
  h !! self = Some (OInstance attrs) →
  attrs !! "footer" = Some (VRef l) →
  h !! l = Some (ODict d) →
  a ≠ EmptyString → truthy_url (Some b) = true →
  set_footer self (Some a) (Some b) h
  = (Ret (VRef self),
     <[l := ODict (<["icon_url" := VStr (str_url b)]> (<["text" := VStr a]> d))]> h).
Proof.
  intros Hs Hf Hl Ha Hb. unfold set_footer.
  assert (Hta : truthy_str (Some a) = true) by (by destruct a).
  rewrite Hta, Hb. simpl.
  assert (Hne : l ≠ self) by apply (instance_ne_dict _ _ _ _ _ Hs Hl).
  unfold bind.
  rewrite (getattr_spec _ _ _ _ _ Hs Hf), (setitem_spec _ _ _ _ _ Hl).
  erewrite getattr_spec; [| by rewrite lookup_update_ne | done].
  rewrite (setitem_spec _ _ _ _ _ (lookup_update_eq _ _ _ _ Hl)).
  by rewrite update_update.
Qed.

Lemma set_footer_text_only (h : heap) self attrs l d a :
  h !! self = Some (OInstance attrs) →
  attrs !! "footer" = Some (VRef l) →
  h !! l = Some (ODict d) →
  a ≠ EmptyString →
  set_footer self (Some a) None h
  = (Ret (VRef self), <[l := ODict (<["text" := VStr a]> d)]> h).
Proof.
  intros Hs Hf Hl Ha. unfold set_footer.
  assert (Hta : truthy_str (Some a) = true) by (by destruct a).
  rewrite Hta. simpl. unfold bind.
  by rewrite (getattr_spec _ _ _ _ _ Hs Hf), (setitem_spec _ _ _ _ _ Hl).
Qed.

Lemma set_image_url (h : heap) self attrs l d u :
  h !! self = Some (OInstance attrs) →
  attrs !! "image" = Some (VRef l) →
  h !! l = Some (ODict d) →
  set_image self (Some u) h
  = (Ret (VRef self), <[l := ODict (<["url" := VStr (str_url u)]> d)]> h).
Proof.
  intros Hs Hf Hl. unfold set_image, bind.
  by rewrite (getattr_spec _ _ _ _ _ Hs Hf), (setitem_spec _ _ _ _ _ Hl).
Qed.

Lemma set_image_none (h : heap) self attrs l d :
  h !! self = Some (OInstance attrs) →
  attrs !! "image" = Some (VRef l) →
  h !! l = Some (ODict d) →
  set_image self None h = (Ret (VRef self), <[l := ODict ∅]> h).
Proof.
  intros Hs Hf Hl. unfold set_image, bind.
  by rewrite (getattr_spec _ _ _ _ _ Hs Hf), (clear_dict_spec _ _ _ Hl).
Qed.

(** C5: footer updates merge and image updates replace. On any embed,
    [set_footer(text=a, icon_url=b)] followed by [set_footer(text=a)]
    leaves a footer holding both text a and icon_url b, whereas
    [set_image(url=x)] followed by [set_image(url=None)] leaves the image
    mapping empty (a, b non-empty strings such as "a" and "b"). *)
Theorem footer_merges_image_replaces (h : heap) self a b x :
  is_embed h self →
  a ≠ EmptyString → b ≠ EmptyString →
  (∃ h1 h2 footer,
     set_footer self (Some a) (Some (UStr b)) h = (Ret (VRef self), h1)
     ∧ set_footer self (Some a) None h1 = (Ret (VRef self), h2)
     ∧ structure_of h2 self "footer" = Some footer
     ∧ footer !! "text" = Some (VStr a)
     ∧ footer !! "icon_url" = Some (VStr b))
  ∧ (∃ h1 h2,
       set_image self (Some (UStr x)) h = (Ret (VRef self), h1)
       ∧ set_image self None h1 = (Ret (VRef self), h2)
       ∧ structure_of h2 self "image" = Some ∅).
Proof.
  intros (attrs & Hs & Ha) Hna Hnb. split.
  - destruct (ea_footer _ _ Ha) as (l & d & Hf & Hl).
    assert (Hne : l ≠ self) by apply (instance_ne_dict _ _ _ _ _ Hs Hl).
    assert (Hb : truthy_url (Some (UStr b)) = true) by (by destruct b).
    eexists _, _, _. split; [apply (set_footer_text_icon _ _ _ _ _ _ _ Hs Hf Hl Hna Hb) |].
    split.
    { eapply set_footer_text_only; [| exact Hf | by eapply lookup_update_eq | done].
      by rewrite lookup_update_ne. }
    rewrite update_update.
    split; [apply (structure_of_update _ _ _ _ _ _ _ Hs Hf Hl) |].
    split; [by rewrite lookup_insert_eq |].
    rewrite lookup_insert_ne by done. by rewrite lookup_insert_eq.
  - destruct (ea_image _ _ Ha) as (l & d & Hf & Hl).
    assert (Hne : l ≠ self) by apply (instance_ne_dict _ _ _ _ _ Hs Hl).
    eexists _, _. split; [apply (set_image_url _ _ _ _ _ _ Hs Hf Hl) |].
    split.
    { eapply set_image_none; [| exact Hf | by eapply lookup_update_eq].
      by rewrite lookup_update_ne. }
    rewrite update_update. apply (structure_of_update _ _ _ _ _ _ _ Hs Hf Hl).
Qed.

(** ** Framing: what a step leaves alone *)

Lemma truthy_update_instance (h : heap) self a a' v :
  h !! self = Some (OInstance a) →
  truthy (<[self := OInstance a']> h) v = truthy h v.
Proof.
  intros Hs. destruct v as [| | | | | | l]; simpl; try done.
  destruct (decide (self = l)) as [<- | Hne].
  - by rewrite (lookup_update_eq _ _ _ _ Hs), Hs.
  - by rewrite lookup_update_ne.
Qed.


Lemma embed_attrs_kinds (h h' : heap) attrs attrs' :
  same_kinds h h' →
  (∀ k, k ∈ ["title"; "description"; "url"; "timestamp"; "type"; "colour";
             "footer"; "image"; "thumbnail"; "author"; "fields"] →
        attrs' !! k = attrs !! k) →
  embed_attrs h attrs → embed_attrs h' attrs'.
Proof.
  intros [Hd Hl] Hk [(v1 & ? & ?) (v2 & ? & ?) (v3 & ? & ?) (v4 & ? & ?)
    (v5 & ? & ?) Hc (l1 & d1 & ? & E1) (l2 & d2 & ? & E2) (l3 & d3 & ? & E3)
    (l4 & d4 & ? & E4) (l5 & xs & ? & E5)].
  destruct (Hd _ _ E1) as [d1' ?]. destruct (Hd _ _ E2) as [d2' ?].
  destruct (Hd _ _ E3) as [d3' ?]. destruct (Hd _ _ E4) as [d4' ?].
  destruct (Hl _ _ E5) as [xs' ?].
  split; rewrite ?Hk by (repeat constructor); eauto 6.
Qed.

Lemma same_kinds_update_instance (h : heap) self a a' :
  h !! self = Some (OInstance a) →
  same_kinds h (<[self := OInstance a']> h).
Proof.
  intros Hs. split; intros l x Hx; exists x;
    (rewrite lookup_update_ne; [done | intros ->; congruence]).
Qed.

Lemma same_kinds_app (h t : heap) : same_kinds h (h ++ t).
Proof. split; intros l x Hx; exists x; by apply lookup_below. Qed.

Lemma same_kinds_trans (h1 h2 h3 : heap) :
  same_kinds h1 h2 → same_kinds h2 h3 → same_kinds h1 h3.
Proof.
  intros [A1 B1] [A2 B2]. split; intros l x Hx.
  - destruct (A1 _ _ Hx) as [y Hy]. eauto.
  - destruct (B1 _ _ Hx) as [y Hy]. eauto.
Qed.

Lemma same_kinds_update_list (h : heap) l xs ys :
  h !! l = Some (OList xs) → same_kinds h (<[l := OList ys]> h).
Proof.
  intros Hl. split; intros l' x Hx.
  - exists x. rewrite lookup_update_ne; [done | intros ->; congruence].
  - destruct (decide (l = l')) as [<- | Hne].
    + exists ys. by eapply lookup_update_eq.
    + exists x. by rewrite lookup_update_ne.
Qed.

Lemma same_kinds_update_dict (h : heap) l d d' :
  h !! l = Some (ODict d) → same_kinds h (<[l := ODict d']> h).
Proof.
  intros Hl. split; intros l' x Hx.
  - destruct (decide (l = l')) as [<- | Hne].
    + exists d'. by eapply lookup_update_eq.
    + exists x. by rewrite lookup_update_ne.
  - exists x. rewrite lookup_update_ne; [done | intros ->; congruence].
Qed.

(** The mapping depends on the ten attributes and on which of them are
    truthy, nothing else. *)
Lemma serialized_ext (h h' : heap) attrs attrs' :
  (∀ k, k ∈ ["title"; "description"; "url"; "timestamp"; "type"; "colour";
             "footer"; "image"; "thumbnail"; "author"; "fields"] →
        attrs' !! k = attrs !! k) →
  (∀ k v, attrs !! k = Some v → truthy h' v = truthy h v) →
  serialized h' attrs' = serialized h attrs.
Proof.
  intros Hk Ht. unfold serialized, emit_timestamp, emit_colour.
  assert (He : ∀ k items,
    k ∈ ["title"; "description"; "url"; "timestamp"; "type"; "colour";
         "footer"; "image"; "thumbnail"; "author"; "fields"] →
    emit h' attrs' k k items = emit h attrs k k items).
  { intros k items Hin. unfold emit. rewrite (Hk _ Hin).
    destruct (attrs !! k) as [v|] eqn:E; [| done]. by rewrite (Ht _ _ E). }
  rewrite !Hk by (repeat constructor).
  by rewrite !He by (repeat constructor).
Qed.

Lemma truthy_after_to_dict (h t : heap) self attrs na v :
  h !! self = Some (OInstance attrs) →
  closed h v →
  truthy (<[self := OInstance na]> h ++ t) v = truthy h v.
Proof.
  intros Hs Hc. rewrite truthy_app.
  - by eapply truthy_update_instance.
  - destruct v; simpl in *; try done. by rewrite length_insert.
Qed.

Lemma is_embed_add_field (h : heap) self attrs l xs v t :
  h !! self = Some (OInstance attrs) →
  embed_attrs h attrs →
  h !! l = Some (OList xs) →
  (<[l := OList (xs ++ [v])]> h ++ t) !! self = Some (OInstance attrs)
  ∧ embed_attrs (<[l := OList (xs ++ [v])]> h ++ t) attrs.
Proof.
  intros Hs Ha Hl. split.
  - apply lookup_below. rewrite lookup_update_ne; [done |].
    apply (instance_ne_list _ _ _ _ _ Hs Hl).
  - eapply embed_attrs_kinds; [| done | exact Ha].
    eapply same_kinds_trans; [by eapply same_kinds_update_list |].
    apply same_kinds_app.
Qed.

(** ** What [to_dict] emits *)


Lemma attr_of_after_to_dict (h t : heap) self attrs na name :
  h !! self = Some (OInstance attrs) →
  attr_of (<[self := OInstance na]> h ++ t) self name = na !! name.
Proof.
  intros Hs. unfold attr_of.
  by rewrite (lookup_below _ _ _ _ (lookup_update_eq _ _ _ _ Hs)).
Qed.

(** C8: [to_dict] emits a "timestamp" key exactly when the stored
    timestamp is truthy and a date-time. A naive one is first replaced on
    the instance by the aware value [astimezone()] gives (same reading,
    local zone attached) and the ISO string of that value is emitted; an
    aware one is left alone and its ISO string is emitted. *)
Theorem to_dict_timestamp (h : heap) self :
  is_embed h self →
  ∃ d h' items ts,
    to_dict self h = (Ret (VRef d), h')
    ∧ h' !! d = Some (ODict items)
    ∧ attr_of h self "timestamp" = Some ts
    ∧ (is_Some (items !! "timestamp")
       ↔ truthy h ts = true ∧ isinstance_datetime ts = true)
    ∧ (∀ dt, ts = VDatetime dt → tzinfo dt = None →
         attr_of h' self "timestamp" = Some (VDatetime (astimezone dt))
         ∧ tzinfo (astimezone dt) = Some (local_utcoffset (wall dt))
         ∧ wall (astimezone dt) = wall dt
         ∧ items !! "timestamp" = Some (VStr (isoformat (astimezone dt))))
    ∧ (∀ dt off, ts = VDatetime dt → tzinfo dt = Some off →
         attr_of h' self "timestamp" = Some (VDatetime dt)
         ∧ items !! "timestamp" = Some (VStr (isoformat dt))).
Proof.
  intros (attrs & Hs & Ha). destruct (ea_timestamp _ _ Ha) as (ts & Et & Hsc).
  eexists _, _, _, ts. split; [apply (to_dict_spec _ _ _ Hs Ha) |].
  split; [apply lookup_top_eq, length_insert |].
  split; [by unfold attr_of; rewrite Hs |].
  rewrite serialized_lookup_timestamp, (attr_of_after_to_dict _ _ _ _ _ _ Hs).
  unfold normalized_attrs. rewrite Et. split; [| split].
  - destruct ts; simpl; split; try done; try (by intros [? ?]);
      try (by intros [??]); by intros [_ [=]].
  - intros dt -> Hn. unfold normalized. rewrite bool_decide_eq_true_2 by done.
    rewrite lookup_insert_eq. unfold astimezone. by rewrite Hn.
  - intros dt off -> Hn. unfold normalized.
    rewrite bool_decide_eq_false_2 by congruence.
    by rewrite lookup_insert_eq.
Qed.

(** ** [set_colour] *)

Lemma set_colour_spec (h : heap) self attrs value :
  h !! self = Some (OInstance attrs) →
  value = VNone ∨ is_colour_arg value = true →
  set_colour self value h
  = (Ret (VRef self), <[self := OInstance (<["_colour" := wrapped value]> attrs)]> h).
Proof.
  intros Hs Hv. unfold set_colour, bind.
  destruct Hv as [-> | Hv]; simpl.
  - by rewrite (setattr_spec _ _ _ _ _ Hs).
  - destruct value as [| | z | | [z] | |]; try done;
      unfold Colour_new, bind, py_int, Colour_int, ret; simpl in *;
      by rewrite Hv, (setattr_spec _ _ _ _ _ Hs).
Qed.

Lemma set_colour_refused (h : heap) self z :
  in_colour_range z = false →
  set_colour self (VInt z) h = (Raise ValueError, h).
Proof.
  intros Hz. unfold set_colour, Colour_new, bind, py_int, ret, raise. simpl.
  by rewrite Hz.
Qed.

(** C3: [set_colour] binds the attribute [_colour], not [colour]. For
    [None], a wrapper or an integer within [0..0xFFFFFF] the call returns
    the embed with [_colour] holding the wrapper (or [None]), while the
    value read through [colour], what [__repr__] shows and the mapping
    [to_dict] returns are what they were before. For an integer outside
    [0..0xFFFFFF] the wrapper is refused: the call raises [ValueError] and
    the store is left as it was. *)
Theorem set_colour_not_visible (h : heap) self :
  is_embed h self →
  (∀ value, value = VNone ∨ is_colour_arg value = true →
     ∃ h',
       set_colour self value h = (Ret (VRef self), h')
       ∧ attr_of h' self "_colour" = Some (wrapped value)
       ∧ attr_of h' self "colour" = attr_of h self "colour"
       ∧ (∃ parts, __repr__ self h = (Ret parts, h)
                   ∧ __repr__ self h' = (Ret parts, h'))
       ∧ (∃ d h1 h1' items,
            to_dict self h = (Ret (VRef d), h1)
            ∧ to_dict self h' = (Ret (VRef d), h1')
            ∧ h1 !! d = Some (ODict items)
            ∧ h1' !! d = Some (ODict items)))
  ∧ (∀ z, in_colour_range z = false →
          set_colour self (VInt z) h = (Raise ValueError, h)).
Proof.
  intros (attrs & Hs & Ha). split; [| by intros z; apply set_colour_refused].
  intros value Hv.
  set (attrs' := <["_colour" := wrapped value]> attrs).
  set (h' := <[self := OInstance attrs']> h).
  assert (Hs' : h' !! self = Some (OInstance attrs')) by (by eapply lookup_update_eq).
  assert (Hk : ∀ k, k ∈ ["title"; "description"; "url"; "timestamp"; "type";
                         "colour"; "footer"; "image"; "thumbnail"; "author";
                         "fields"] → attrs' !! k = attrs !! k).
  { intros k Hk. unfold attrs'. apply lookup_insert_ne. intros <-.
    repeat (apply elem_of_cons in Hk as [? | Hk]; [done |]).
    by apply elem_of_nil in Hk. }
  assert (Ha' : embed_attrs h' attrs').
  { eapply embed_attrs_kinds; [by eapply same_kinds_update_instance | exact Hk | exact Ha]. }
  exists h'. split; [by apply set_colour_spec |].
  split; [by unfold attr_of; rewrite Hs'; apply lookup_insert_eq |].
  split; [by unfold attr_of; rewrite Hs, Hs'; apply Hk; repeat constructor |].
  split.
  - destruct (ea_title _ _ Ha) as (t & Et & _).
    destruct (embed_attrs_closed h attrs "colour" Ha) as (c & Ec & _);
      [repeat constructor |].
    exists [Lit "<Embed title="; Interp t; Lit " colour="; Interp c; Lit ">"].
    unfold __repr__, bind. split.
    + by rewrite !(getattr_spec _ _ _ _ _ Hs Et), (getattr_spec _ _ _ _ _ Hs Ec).
    + assert (Et' : attrs' !! "title" = Some t) by (by rewrite Hk by repeat constructor).
      assert (Ec' : attrs' !! "colour" = Some c) by (by rewrite Hk by repeat constructor).
      by rewrite !(getattr_spec _ _ _ _ _ Hs' Et'), (getattr_spec _ _ _ _ _ Hs' Ec').
  - exists (length h). eexists _, _, (serialized h attrs).
    split; [apply (to_dict_spec _ _ _ Hs Ha) |].
    split.
    { rewrite (to_dict_spec _ _ _ Hs' Ha'). unfold h' at 1.
      by rewrite length_insert. }
    split; [apply lookup_top_eq, length_insert |].
    rewrite (serialized_ext h h' attrs attrs' Hk).
    + apply lookup_top_eq. unfold h'. by rewrite !length_insert.
    + intros k v _. by eapply truthy_update_instance.
Qed.

(** ** The constructor *)

Lemma getattr_new (H : heap) a rest name v :
  a !! name = Some v →
  getattr (length H) name (H ++ OInstance a :: rest)
  = (Ret v, H ++ OInstance a :: rest).
Proof.
  intros Hv. unfold getattr. rewrite list_lookup_middle by done. by rewrite Hv.
Qed.

Ltac lookup_inserts :=
  repeat first [ rewrite lookup_insert_eq | rewrite lookup_insert_ne by done ].

Lemma init_spec (h : heap) title description colour color url timestamp :
  colour = VNone ∨ is_colour_arg colour = true →
  color = VNone ∨ is_colour_arg color = true →
  ∃ attrs,
    __init__ (length h) title description colour color url timestamp
      (h ++ [OInstance ∅])
    = (Ret tt,
       h ++ [OInstance attrs; ODict ∅; ODict ∅; ODict ∅; ODict ∅; OList []])
    ∧ attrs !! "colour"
      = Some (if negb (is_None colour) then wrapped colour else wrapped color)
    ∧ attrs !! "title" = Some (opt_str title)
    ∧ attrs !! "description" = Some (opt_str description)
    ∧ attrs !! "timestamp" = Some (opt_datetime timestamp)
    ∧ attrs !! "url" = Some (opt_str url)
    ∧ attrs !! "type" = Some (VStr "rich")
    ∧ attrs !! "footer" = Some (VRef (length h + 1))
    ∧ attrs !! "image" = Some (VRef (length h + 2))
    ∧ attrs !! "thumbnail" = Some (VRef (length h + 3))
    ∧ attrs !! "author" = Some (VRef (length h + 4))
    ∧ attrs !! "fields" = Some (VRef (length h + 5)).
Proof.
  intros Hc1 Hc2. unfold __init__.
  rewrite (bind_step _ _ _ _ _ (setattr_new _ _ _ _ _)).
  set (chosen := if negb (is_None colour) then wrapped colour else wrapped color).
  erewrite (bind_step _ _ _ tt (h ++ [OInstance (<["colour" := chosen]> ∅)]));
    cycle 1.
  { unfold chosen.
    destruct Hc1 as [-> | Hc1]; [destruct Hc2 as [-> | Hc2] |]; simpl.
    - done.
    - destruct color as [| | z | | [z] | |]; try done;
        unfold Colour_new, bind, py_int, Colour_int, ret; simpl in *;
        by rewrite Hc2, setattr_new, insert_insert_eq.
    - destruct colour as [| | z | | [z] | |]; try done;
        unfold Colour_new, bind, py_int, Colour_int, ret; simpl in *;
        by rewrite Hc1, setattr_new, insert_insert_eq. }
  do 5 (rewrite (bind_step _ _ _ _ _ (setattr_new _ _ _ _ _))).
  do 4 (erewrite bind_step;
        [| unfold bind at 1; rewrite new_dict_after; apply setattr_new]).
  erewrite bind_step;
        [| unfold bind at 1; rewrite new_list_after; apply setattr_new].
  simpl. unfold bind.
  erewrite getattr_new by (lookup_inserts; reflexivity).
  destruct title, description, timestamp; simpl;
    rewrite ?setattr_new;
    (erewrite getattr_new by (lookup_inserts; reflexivity)); simpl;
    rewrite ?setattr_new; unfold ret;
    (eexists; split; [reflexivity |]); repeat split; lookup_inserts; reflexivity.
Qed.

Lemma Embed_spec (h : heap) title description colour color url timestamp :
  colour = VNone ∨ is_colour_arg colour = true →
  color = VNone ∨ is_colour_arg color = true →
  ∃ attrs,
    Embed title description colour color url timestamp h
    = (Ret (VRef (length h)),
       h ++ [OInstance attrs; ODict ∅; ODict ∅; ODict ∅; ODict ∅; OList []])
    ∧ attrs !! "colour"
      = Some (if negb (is_None colour) then wrapped colour else wrapped color)
    ∧ attrs !! "title" = Some (opt_str title)
    ∧ attrs !! "description" = Some (opt_str description)
    ∧ attrs !! "timestamp" = Some (opt_datetime timestamp)
    ∧ attrs !! "url" = Some (opt_str url)
    ∧ attrs !! "type" = Some (VStr "rich")
    ∧ attrs !! "footer" = Some (VRef (length h + 1))
    ∧ attrs !! "image" = Some (VRef (length h + 2))
    ∧ attrs !! "thumbnail" = Some (VRef (length h + 3))
    ∧ attrs !! "author" = Some (VRef (length h + 4))
    ∧ attrs !! "fields" = Some (VRef (length h + 5)).
Proof.
  intros Hc1 Hc2.
  destruct (init_spec h title description colour color url timestamp Hc1 Hc2)
    as (attrs & Hrun & Hattrs).
  exists attrs. split; [| exact Hattrs]. unfold Embed.
  rewrite (bind_step (alloc (OInstance ∅)) _ h (length h) (h ++ [OInstance ∅]))
    by done.
  by rewrite (bind_step _ _ _ _ _ Hrun).
Qed.

Lemma attr_of_new (H : heap) a rest name :
  attr_of (H ++ OInstance a :: rest) (length H) name = a !! name.
Proof. unfold attr_of. by rewrite list_lookup_middle. Qed.



(** The constructor builds an embed. *)
Lemma Embed_is_embed (h : heap) title description colour color url timestamp :
  colour = VNone ∨ is_colour_arg colour = true →
  color = VNone ∨ is_colour_arg color = true →
  ∃ h', Embed title description colour color url timestamp h
        = (Ret (VRef (length h)), h')
        ∧ is_embed h' (length h).
Proof.
  intros Hc1 Hc2.
  destruct (Embed_spec h title description colour color url timestamp Hc1 Hc2)
    as (attrs & Hrun & Hc & Ht & Hd & Hts & Hu & Hty & Hfo & Him & Hth & Hau & Hfi).
  eexists. split; [exact Hrun |]. exists attrs.
  split; [by rewrite list_lookup_middle |].
  assert (Hat : ∀ k o, [ODict ∅; ODict ∅; ODict ∅; ODict ∅; OList []] !! k = Some o →
     (h ++ [OInstance attrs; ODict ∅; ODict ∅; ODict ∅; ODict ∅; OList []])
       !! (length h + S k)%nat = Some o).
  { intros k o Hk. rewrite lookup_app_r by lia.
    by replace (length h + S k - length h)%nat with (S k) by lia. }
  split.
  - exists (opt_str title). split; [done | by destruct title].
  - exists (opt_str description). split; [done | by destruct description].
  - exists (opt_str url). split; [done | by destruct url].
  - exists (opt_datetime timestamp). split; [done | by destruct timestamp].
  - by exists (VStr "rich").
  - rewrite Hc. destruct Hc1 as [-> | Hc1]; simpl.
    + destruct Hc2 as [-> | Hc2]; [by left |].
      destruct color; try done; right; simpl; eauto.
    + destruct colour; try done; right; simpl; eauto.
  - exists (length h + 1)%nat, ∅. split; [done |]. by apply (Hat 0%nat).
  - exists (length h + 2)%nat, ∅. split; [done |]. by apply (Hat 1%nat).
  - exists (length h + 3)%nat, ∅. split; [done |]. by apply (Hat 2%nat).
  - exists (length h + 4)%nat, ∅. split; [done |]. by apply (Hat 3%nat).
  - exists (length h + 5)%nat, []. split; [done |]. by apply (Hat 4%nat).
Qed.

(** ** The round trip and [copy] *)

Lemma serialized_colour_ok h attrs :
  embed_attrs h attrs → colour_ok (serialized h attrs).
Proof.
  intros Ha. unfold colour_ok. rewrite serialized_lookup_color.
  destruct (ea_colour _ _ Ha) as [E | (c & E & Hr)]; rewrite E; [done |].
  by destruct (negb _).
Qed.

Lemma lookup_second (H : heap) a b rest n :
  length H = n → (H ++ a :: b :: rest) !! (n + 1)%nat = Some b.
Proof.
  intros <-. rewrite lookup_app_r by lia.
  by replace (length H + 1 - length H)%nat with 1%nat by lia.
Qed.

Lemma copy_spec (h : heap) e attrs :
  h !! e = Some (OInstance attrs) →
  embed_attrs h attrs →
  copy e h
  = (Ret (VRef (length h + 1)),
     <[e := OInstance (normalized_attrs attrs)]> h
       ++ [ODict (serialized h attrs);
           OInstance (deserialized (serialized h attrs) (length h + 1));
           ODict ∅; ODict ∅; ODict ∅; ODict ∅; OList []]).
Proof.
  intros Hs Ha. unfold copy.
  rewrite (bind_step _ _ _ _ _ (to_dict_spec _ _ _ Hs Ha)).
  erewrite from_dict_spec;
    [| apply lookup_top_eq, length_insert | by apply serialized_colour_ok].
  rewrite length_app, length_insert. simpl.
  by rewrite <- app_assoc.
Qed.

(** What the rebuilt instance holds, attribute by attribute. *)
Lemma deserialized_passed h attrs n k v :
  k ∈ ["title"; "description"; "url"; "footer"; "image"; "thumbnail";
       "author"; "fields"] →
  attrs !! k = Some v → truthy h v = true →
  deserialized (serialized h attrs) n !! k = Some v.
Proof.
  intros Hk Hv Ht.
  assert (Hs : serialized h attrs !! k = Some v).
  { rewrite serialized_lookup, Hv, Ht; [done |].
    repeat (apply elem_of_cons in Hk as [-> | Hk]);
      [ | | | | | | | | by apply elem_of_nil in Hk ]; repeat constructor. }
  unfold deserialized.
  repeat (apply elem_of_cons in Hk as [-> | Hk]);
    [ | | | | | | | | by apply elem_of_nil in Hk ];
    lookup_inserts; by rewrite Hs.
Qed.

Lemma deserialized_colour h attrs n c :
  attrs !! "colour" = Some (VColour c) → truthy h (VColour c) = true →
  deserialized (serialized h attrs) n !! "colour" = Some (VColour c).
Proof.
  intros Hv Ht. unfold deserialized. lookup_inserts.
  unfold colour_of_transport. rewrite serialized_lookup_color, Hv.
  simpl in Ht. unfold Colour_bool in Ht. rewrite Ht. by destruct c.
Qed.

Lemma deserialized_timestamp h attrs n d :
  attrs !! "timestamp" = Some (VDatetime d) →
  deserialized (serialized h attrs) n !! "timestamp"
  = Some (VStr (isoformat (normalized d))).
Proof.
  intros Hv. unfold deserialized. lookup_inserts.
  by rewrite serialized_lookup_timestamp, Hv.
Qed.

Lemma deserialized_type h attrs n :
  deserialized (serialized h attrs) n !! "type" = Some (VStr "rich").
Proof.
  unfold deserialized. lookup_inserts. by rewrite serialized_lookup_type.
Qed.

Lemma normalized_attrs_other attrs k :
  k ≠ "timestamp" → normalized_attrs attrs !! k = attrs !! k.
Proof.
  intros Hne. unfold normalized_attrs.
  destruct (attrs !! "timestamp") as [[]|]; try done.
  by rewrite lookup_insert_ne.
Qed.

Lemma normalized_attrs_timestamp attrs d :
  attrs !! "timestamp" = Some (VDatetime d) →
  normalized_attrs attrs !! "timestamp" = Some (VDatetime (normalized d)).
Proof.
  intros Hv. unfold normalized_attrs. rewrite Hv. by rewrite lookup_insert_eq.
Qed.

Lemma copied_attr_new (h : heap) e attrs k :
  attr_of (copied h e attrs) (length h + 1) k
  = deserialized (serialized h attrs) (length h + 1) !! k.
Proof.
  unfold attr_of, copied.
  by rewrite (lookup_second _ _ _ _ (length h)) by apply length_insert.
Qed.

Lemma copied_attr_old (h : heap) e attrs k :
  h !! e = Some (OInstance attrs) →
  attr_of (copied h e attrs) e k = normalized_attrs attrs !! k.
Proof. intros Hs. by apply attr_of_after_to_dict with (attrs := attrs). Qed.

Lemma copied_content (h : heap) e attrs :
  h !! e = Some (OInstance attrs) →
  embed_attrs h attrs →
  (∀ k v,
     k ∈ ["title"; "description"; "url"; "colour"; "footer"; "image";
          "thumbnail"; "author"; "fields"] →
     attrs !! k = Some v → truthy h v = true →
     attr_of (copied h e attrs) (length h + 1) k = Some v
     ∧ attr_of (copied h e attrs) e k = Some v)
  ∧ (∀ dt, attrs !! "timestamp" = Some (VDatetime dt) →
       attr_of (copied h e attrs) (length h + 1) "timestamp"
       = Some (VStr (isoformat (normalized dt)))
       ∧ attr_of (copied h e attrs) e "timestamp"
         = Some (VDatetime (normalized dt)))
  ∧ attr_of (copied h e attrs) (length h + 1) "type" = Some (VStr "rich")
  ∧ (∀ l o, l ≠ e → h !! l = Some o → copied h e attrs !! l = Some o).
Proof.
  intros Hs Ha.
  split; [| split; [| split]].
  - intros k v Hk Hv Ht.
    rewrite copied_attr_new, (copied_attr_old _ _ _ _ Hs).
    assert (Hnts : k ≠ "timestamp").
    { intros ->. repeat (apply elem_of_cons in Hk as [? | Hk]; [done |]).
      by apply elem_of_nil in Hk. }
    rewrite (normalized_attrs_other _ _ Hnts). split; [| done].
    destruct (decide (k = "colour")) as [-> | Hnc].
    + destruct (ea_colour _ _ Ha) as [E | (c & E & _)]; rewrite E in Hv;
        simplify_eq; first [done | by apply deserialized_colour].
    + apply deserialized_passed; [| done | done].
      repeat (apply elem_of_cons in Hk as [-> | Hk]);
        [ | | | | | | | | | by apply elem_of_nil in Hk ];
        try done; repeat constructor.
  - intros dt Hdt. rewrite copied_attr_new, (copied_attr_old _ _ _ _ Hs). split.
    + by apply deserialized_timestamp.
    + by apply normalized_attrs_timestamp.
  - rewrite copied_attr_new. apply deserialized_type.
  - intros l o Hne Hl. unfold copied. apply lookup_below.
    by rewrite lookup_update_ne.
Qed.

(** C1, as the code has it: [from_dict(to_dict(e))] gives an instance
    on which each of title, description, url, colour, footer, image,
    thumbnail, author and fields that is non-empty on [e] has the value it
    has on [e] (for a sub-structure: the very same object, whose contents
    are untouched). The timestamp is the exception: a date-time on [e]
    comes back as its ISO-8601 string. [type] is not serialized and is
    "rich" on the rebuilt instance. *)
Theorem roundtrip_fields (h : heap) e :
  is_embed h e →
  ∃ d h1 c h2,
    to_dict e h = (Ret d, h1)
    ∧ from_dict d h1 = (Ret (VRef c), h2)
    ∧ (∀ k v,
         k ∈ ["title"; "description"; "url"; "colour"; "footer"; "image";
              "thumbnail"; "author"; "fields"] →
         attr_of h e k = Some v → truthy h v = true →
         attr_of h2 c k = Some v ∧ attr_of h2 e k = Some v)
    ∧ (∀ dt, attr_of h e "timestamp" = Some (VDatetime dt) →
         attr_of h2 c "timestamp" = Some (VStr (isoformat (normalized dt)))
         ∧ attr_of h2 e "timestamp" = Some (VDatetime (normalized dt)))
    ∧ attr_of h2 c "type" = Some (VStr "rich")
    ∧ (∀ l o, l ≠ e → h !! l = Some o → h2 !! l = Some o).
Proof.
  intros (attrs & Hs & Ha).
  pose proof (copy_spec _ _ _ Hs Ha) as Hcopy. unfold copy in Hcopy.
  rewrite (bind_step _ _ _ _ _ (to_dict_spec _ _ _ Hs Ha)) in Hcopy.
  exists (VRef (length h)),
    (<[e := OInstance (normalized_attrs attrs)]> h ++ [ODict (serialized h attrs)]),
    (length h + 1)%nat, (copied h e attrs).
  split; [apply (to_dict_spec _ _ _ Hs Ha) |].
  split; [exact Hcopy |].
  assert (Hh : ∀ k, attr_of h e k = attrs !! k).
  { intros k. unfold attr_of. by rewrite Hs. }
  destruct (copied_content _ _ _ Hs Ha) as (Hsame & Hts & Hty & Hold).
  split; [intros k v Hk Hv Ht; rewrite Hh in Hv; by apply Hsame |].
  split; [intros dt Hdt; rewrite Hh in Hdt; by apply Hts |].
  by split.
Qed.

(** [set_footer] and [set_author] write into the dict the attribute
    refers to, and nowhere else. *)
Lemma getattr_update (h : heap) self attrs l o name v :
  h !! self = Some (OInstance attrs) → l ≠ self → attrs !! name = Some v →
  getattr self name (<[l := o]> h) = (Ret v, <[l := o]> h).
Proof.
  intros Hs Hne Hv. apply getattr_spec with (attrs := attrs); [| done].
  by rewrite lookup_update_ne.
Qed.

Lemma setitem_update (h : heap) l d0 d key v :
  h !! l = Some (ODict d0) →
  setitem (VRef l) key v (<[l := ODict d]> h)
  = (Ret tt, <[l := ODict (<[key := v]> d)]> h).
Proof.
  intros Hl. rewrite (setitem_spec _ _ d); [| by eapply lookup_update_eq].
  by rewrite update_update.
Qed.

Lemma set_footer_touches (h : heap) self attrs l d text icon_url :
  h !! self = Some (OInstance attrs) →
  attrs !! "footer" = Some (VRef l) →
  h !! l = Some (ODict d) →
  ∃ d', set_footer self text icon_url h = (Ret (VRef self), <[l := ODict d']> h).
Proof.
  intros Hs Hf Hl.
  assert (Hne : l ≠ self) by apply (instance_ne_dict _ _ _ _ _ Hs Hl).
  unfold set_footer.
  destruct text as [[| a s] |], icon_url as [[[| b s'] | a'] |]; simpl;
    unfold bind, when, ret;
    rewrite ?(getattr_spec _ _ _ _ _ Hs Hf), ?(clear_dict_spec _ _ _ Hl),
      ?(setitem_spec _ _ _ _ _ Hl),
      ?(getattr_update _ _ _ _ _ _ _ Hs Hne Hf), ?(setitem_update _ _ _ _ _ _ Hl);
    eauto.
Qed.

Lemma set_author_touches (h : heap) self attrs l d name url icon_url :
  h !! self = Some (OInstance attrs) →
  attrs !! "author" = Some (VRef l) →
  h !! l = Some (ODict d) →
  ∃ d', set_author self name url icon_url h = (Ret (VRef self), <[l := ODict d']> h).
Proof.
  intros Hs Hf Hl.
  assert (Hne : l ≠ self) by apply (instance_ne_dict _ _ _ _ _ Hs Hl).
  unfold set_author.
  destruct url as [u |], icon_url as [i |]; simpl;
    unfold bind, ret;
    rewrite ?(getattr_spec _ _ _ _ _ Hs Hf), ?(setitem_spec _ _ _ _ _ Hl),
      ?(getattr_update _ _ _ _ _ _ _ Hs Hne Hf), ?(setitem_update _ _ _ _ _ _ Hl),
      ?(getattr_update _ _ _ _ _ _ _ Hs Hne Hf), ?(setitem_update _ _ _ _ _ _ Hl);
    eauto.
Qed.

(** What is seen of an instance depends on the part of the store its
    attributes refer to. *)
Lemma observe_frame (h2 h3 : heap) e N k :
  (∀ l, (l < N)%nat → h3 !! l = h2 !! l) →
  (e < N)%nat →
  (∀ l, attr_of h2 e k = Some (VRef l) → (l < N)%nat) →
  observe h3 e k = observe h2 e k.
Proof.
  intros Hsame He Hcl. unfold observe, attr_of in *. rewrite (Hsame _ He).
  destruct (h2 !! e) as [[| | attrs]|]; try done.
  destruct (attrs !! k) as [[| | | | | | l]|]; try done. simpl.
  by rewrite (Hsame l (Hcl l eq_refl)).
Qed.

Lemma normalized_attrs_closed (h : heap) attrs k l :
  embed_attrs h attrs → k ∈ embed_attributes →
  normalized_attrs attrs !! k = Some (VRef l) → (l < length h)%nat.
Proof.
  intros Ha Hk Hv.
  destruct (decide (k = "timestamp")) as [-> | Hne].
  - destruct (ea_timestamp _ _ Ha) as (v & Ev & Hsc).
    unfold normalized_attrs in Hv. rewrite Ev in Hv.
    destruct v; try (rewrite Ev in Hv; by simplify_eq).
    by rewrite lookup_insert_eq in Hv.
  - rewrite normalized_attrs_other in Hv by done.
    destruct (embed_attrs_closed h attrs k Ha) as (v & Ev & Hcl).
    { unfold embed_attributes in Hk.
      repeat (apply elem_of_cons in Hk as [-> | Hk]);
        [ | | | | | | | | | | | by apply elem_of_nil in Hk ]; repeat constructor. }
    rewrite Ev in Hv. by simplify_eq.
Qed.

Lemma copied_lookup_tail (h : heap) e attrs i o :
  [ODict (serialized h attrs);
   OInstance (deserialized (serialized h attrs) (length h + 1));
   ODict ∅; ODict ∅; ODict ∅; ODict ∅; OList []] !! i = Some o →
  copied h e attrs !! (length h + i)%nat = Some o.
Proof.
  intros Hi. unfold copied. rewrite lookup_app_r by (rewrite length_insert; lia).
  rewrite length_insert. by replace (length h + i - length h)%nat with i by lia.
Qed.

Lemma deserialized_fresh h attrs n :
  (∀ v, attrs !! "footer" = Some v → truthy h v = false →
        deserialized (serialized h attrs) n !! "footer" = Some (VRef (n + 1)))
  ∧ (∀ v, attrs !! "author" = Some v → truthy h v = false →
          deserialized (serialized h attrs) n !! "author" = Some (VRef (n + 4)))
  ∧ (∀ v, attrs !! "fields" = Some v → truthy h v = false →
          deserialized (serialized h attrs) n !! "fields" = Some (VRef (n + 5))).
Proof.
  repeat split; intros v Hv Ht; unfold deserialized; lookup_inserts;
    by rewrite serialized_lookup, Hv, Ht by (repeat constructor).
Qed.

Lemma observe_old (h h2 : heap) e attrs k :
  h !! e = Some (OInstance attrs) →
  embed_attrs h attrs →
  (∀ l, (l < length h)%nat → h2 !! l = copied h e attrs !! l) →
  k ∈ embed_attributes →
  observe h2 e k = observe (copied h e attrs) e k.
Proof.
  intros Hs Ha Hsame Hk. apply observe_frame with (N := length h).
  - exact Hsame.
  - by eapply lookup_lt_Some.
  - intros l Hl. rewrite (copied_attr_old _ _ _ _ Hs) in Hl.
    by eapply normalized_attrs_closed.
Qed.

Lemma update_above (H t : heap) l o l' :
  (l' < l)%nat → (l' < length H)%nat →
  (<[l := o]> H ++ t) !! l' = H !! l'.
Proof.
  intros Hl Hl'. rewrite lookup_app_l by (by rewrite length_insert).
  apply lookup_update_ne. lia.
Qed.

Lemma copied_length (h : heap) e attrs : length (copied h e attrs) = (length h + 7)%nat.
Proof. unfold copied. rewrite length_app, length_insert. simpl. lia. Qed.

(** What [copy] does give: a new instance on which each of title,
    description, url, colour, footer, image, thumbnail, author and fields
    that is non-empty on [e] is bound to the value it has on [e] (for a
    sub-structure, to the same object); a date-time timestamp comes back
    as its ISO-8601 string and [type] as "rich". A structure that was empty
    on [e] is a new object on the copy, so that [add_field], [set_footer]
    or [set_author] on the copy then leaves [e] as it was. *)
Theorem copy_new_instance (h : heap) e :
  is_embed h e →
  ∃ c h1,
    copy e h = (Ret (VRef c), h1)
    ∧ c ≠ e ∧ h !! c = None
    ∧ (∀ k v,
         k ∈ ["title"; "description"; "url"; "colour"; "footer"; "image";
              "thumbnail"; "author"; "fields"] →
         attr_of h e k = Some v → truthy h v = true →
         attr_of h1 c k = Some v ∧ attr_of h1 e k = Some v)
    ∧ (∀ dt, attr_of h e "timestamp" = Some (VDatetime dt) →
         attr_of h1 c "timestamp" = Some (VStr (isoformat (normalized dt)))
         ∧ attr_of h1 e "timestamp" = Some (VDatetime (normalized dt)))
    ∧ attr_of h1 c "type" = Some (VStr "rich")
    ∧ (fields_of h e = Some [] →
       ∀ name value inline,
         ∃ h2, add_field c name value inline h1 = (Ret (VRef c), h2)
               ∧ ∀ k, k ∈ embed_attributes → observe h2 e k = observe h1 e k)
    ∧ (structure_of h e "footer" = Some ∅ →
       ∀ text icon_url,
         ∃ h2, set_footer c text icon_url h1 = (Ret (VRef c), h2)
               ∧ ∀ k, k ∈ embed_attributes → observe h2 e k = observe h1 e k)
    ∧ (structure_of h e "author" = Some ∅ →
       ∀ name url icon_url,
         ∃ h2, set_author c name url icon_url h1 = (Ret (VRef c), h2)
               ∧ ∀ k, k ∈ embed_attributes → observe h2 e k = observe h1 e k).
Proof.
  intros (attrs & Hs & Ha).
  assert (He : (e < length h)%nat) by (by eapply lookup_lt_Some).
  assert (Hh : ∀ k, attr_of h e k = attrs !! k).
  { intros k. unfold attr_of. by rewrite Hs. }
  destruct (copied_content _ _ _ Hs Ha) as (Hsame & Hts & Hty & Hold).
  destruct (deserialized_fresh h attrs (length h + 1)) as (Hfo & Hau & Hfi).
  assert (Hc : copied h e attrs !! (length h + 1)%nat
               = Some (OInstance (deserialized (serialized h attrs) (length h + 1))))
    by (by apply copied_lookup_tail).
  exists (length h + 1)%nat, (copied h e attrs).
  split; [apply (copy_spec _ _ _ Hs Ha) |].
  split; [lia |].
  split; [apply lookup_ge_None; lia |].
  split; [intros k v Hk Hv Ht; rewrite Hh in Hv; by apply Hsame |].
  split; [intros dt Hdt; rewrite Hh in Hdt; by apply Hts |].
  split; [done |].
  split; [| split].
  - intros Hempty name value inline.
    destruct (ea_fields _ _ Ha) as (l & xs & Ef & Hl).
    unfold fields_of, attr_of, list_at in Hempty. rewrite Hs, Ef, Hl in Hempty.
    injection Hempty as ->.
    assert (Hnew : deserialized (serialized h attrs) (length h + 1) !! "fields"
                   = Some (VRef (length h + 1 + 5)))
      by (apply (Hfi _ Ef); simpl; by rewrite Hl).
    assert (Hlist : copied h e attrs !! (length h + 1 + 5)%nat = Some (OList [])).
    { replace (length h + 1 + 5)%nat with (length h + 6)%nat by lia.
      by apply copied_lookup_tail. }
    eexists. split; [apply (add_field_spec _ _ _ _ _ _ _ _ Hc Hnew Hlist) |].
    intros k Hk. apply (observe_old _ _ _ _ _ Hs Ha); [| done].
    intros l' Hl'. apply update_above; [lia |].
    rewrite copied_length. lia.
  - intros Hempty text icon_url.
    destruct (ea_footer _ _ Ha) as (l & d & Ef & Hl).
    unfold structure_of, attr_of, dict_at in Hempty. rewrite Hs, Ef, Hl in Hempty.
    injection Hempty as ->.
    assert (Hnew : deserialized (serialized h attrs) (length h + 1) !! "footer"
                   = Some (VRef (length h + 1 + 1)))
      by (apply (Hfo _ Ef); simpl; by rewrite Hl).
    assert (Hdict : copied h e attrs !! (length h + 1 + 1)%nat = Some (ODict ∅)).
    { replace (length h + 1 + 1)%nat with (length h + 2)%nat by lia.
      by apply copied_lookup_tail. }
    destruct (set_footer_touches _ _ _ _ _ text icon_url Hc Hnew Hdict) as (d' & Hrun).
    eexists. split; [exact Hrun |].
    intros k Hk. apply (observe_old _ _ _ _ _ Hs Ha); [| done].
    intros l' Hl'. apply lookup_update_ne. lia.
  - intros Hempty name url icon_url.
    destruct (ea_author _ _ Ha) as (l & d & Ef & Hl).
    unfold structure_of, attr_of, dict_at in Hempty. rewrite Hs, Ef, Hl in Hempty.
    injection Hempty as ->.
    assert (Hnew : deserialized (serialized h attrs) (length h + 1) !! "author"
                   = Some (VRef (length h + 1 + 4)))
      by (apply (Hau _ Ef); simpl; by rewrite Hl).
    assert (Hdict : copied h e attrs !! (length h + 1 + 4)%nat = Some (ODict ∅)).
    { replace (length h + 1 + 4)%nat with (length h + 5)%nat by lia.
      by apply copied_lookup_tail. }
    destruct (set_author_touches _ _ _ _ _ name url icon_url Hc Hnew Hdict)
      as (d' & Hrun).
    eexists. split; [exact Hrun |].
    intros k Hk. apply (observe_old _ _ _ _ _ Hs Ha); [| done].
    intros l' Hl'. apply lookup_update_ne. lia.
Qed.

End Proofs.

(** * The properties on the sample data *)

Lemma two_fields_is_embed : is_embed two_fields 0.
Proof. apply is_embedb_sound. vm_compute. reflexivity. Qed.

Lemma stamped_is_embed : is_embed stamped 0.
Proof. apply is_embedb_sound. vm_compute. reflexivity. Qed.

Lemma naive_stamped_is_embed : is_embed naive_stamped 0.
Proof. apply is_embedb_sound. vm_compute. reflexivity. Qed.

Lemma blank_is_embed : is_embed blank 0.
Proof. apply is_embedb_sound. vm_compute. reflexivity. Qed.


(** [remove_field(99)] on two fields. *)
Lemma remove_field_99_of_two :
  is_embed two_fields 0
  ∧ fields_of two_fields 0 = Some [VRef 6%nat; VRef 7%nat]
  ∧ remove_field 0 99 two_fields = (Ret (VRef 0%nat), two_fields).
Proof.
  split; [apply two_fields_is_embed |].
  split; [vm_compute; reflexivity |].
  apply (remove_field_out_of_range_noop two_fields 0 [VRef 6%nat; VRef 7%nat] 99).
  - apply two_fields_is_embed.
  - vm_compute. reflexivity.
  - left. simpl. lia.
Defined.

(** [remove_field(-1)] on two fields removes the last one. *)
Lemma remove_field_last_of_two :
  is_embed two_fields 0
  ∧ fields_of two_fields 0 = Some [VRef 6%nat; VRef 7%nat]
  ∧ ∃ h', remove_field 0 (-1) two_fields = (Ret (VRef 0%nat), h')
          ∧ fields_of h' 0 = Some [VRef 6%nat].
Proof.
  split; [apply two_fields_is_embed |].
  split; [vm_compute; reflexivity |].
  assert (Hf : fields_of two_fields 0 = Some [VRef 6%nat; VRef 7%nat])
    by (vm_compute; reflexivity).
  assert (Hn : (1 ≤ length [VRef 6%nat; VRef 7%nat])%nat) by (simpl; lia).
  destruct (proj1 (remove_field_negative_index two_fields 0
                     [VRef 6%nat; VRef 7%nat] two_fields_is_embed Hf Hn) (-1))
    as (h' & Hrun & Hfields); [simpl; lia |].
  exists h'. split; [exact Hrun | exact Hfields].
Defined.

(** [add_field] then [remove_field(2)] on two fields. *)
Lemma add_then_remove_on_two :
  is_embed two_fields 0
  ∧ fields_of two_fields 0 = Some [VRef 6%nat; VRef 7%nat]
  ∧ ∃ h1 h2,
      add_field 0 "E" "F" true two_fields = (Ret (VRef 0%nat), h1)
      ∧ remove_field 0 2 h1 = (Ret (VRef 0%nat), h2)
      ∧ fields_of h2 0 = Some [VRef 6%nat; VRef 7%nat].
Proof.
  split; [apply two_fields_is_embed |].
  split; [vm_compute; reflexivity |].
  assert (Hf : fields_of two_fields 0 = Some [VRef 6%nat; VRef 7%nat])
    by (vm_compute; reflexivity).
  destruct (add_then_remove_field two_fields 0 [VRef 6%nat; VRef 7%nat]
              "E" "F" true two_fields_is_embed Hf)
    as (h1 & h2 & r & Hadd & _ & Hrm & Hback & _).
  exists h1, h2. split; [exact Hadd |]. split; [exact Hrm | exact Hback].
Defined.

(** The footer and image example of the specification, on [Embed()]. *)
Lemma footer_and_image_on_blank :
  is_embed blank 0 ∧ "a" ≠ EmptyString ∧ "b" ≠ EmptyString
  ∧ (∃ h1 h2 footer,
       set_footer 0 (Some "a") (Some (UStr "b")) blank = (Ret (VRef 0%nat), h1)
       ∧ set_footer 0 (Some "a") None h1 = (Ret (VRef 0%nat), h2)
       ∧ structure_of h2 0 "footer" = Some footer
       ∧ footer !! "text" = Some (VStr "a")
       ∧ footer !! "icon_url" = Some (VStr "b"))
  ∧ (∃ h1 h2,
       set_image 0 (Some (UStr "x")) blank = (Ret (VRef 0%nat), h1)
       ∧ set_image 0 None h1 = (Ret (VRef 0%nat), h2)
       ∧ structure_of h2 0 "image" = Some ∅).
Proof.
  split; [apply blank_is_embed |].
  split; [done |]. split; [done |].
  apply (footer_merges_image_replaces blank 0 "a" "b" "x" blank_is_embed);
    discriminate.
Defined.


(** [to_dict] on an embed with a naive timestamp. *)
Lemma to_dict_of_naive_stamped :
  is_embed naive_stamped 0
  ∧ ∃ d h' items,
      @to_dict sample_host 0 naive_stamped = (Ret (VRef d), h')
      ∧ h' !! d = Some (ODict items)
      ∧ attr_of h' 0 "timestamp"
        = Some (VDatetime {| wall := 0; tzinfo := Some 0 |})
      ∧ items !! "timestamp" = Some (VStr "1970-01-01T00:00:00+00:00").
Proof.
  split; [apply naive_stamped_is_embed |].
  destruct (@to_dict_timestamp sample_host naive_stamped 0 naive_stamped_is_embed)
    as (d & h' & items & ts & Hrun & Hd & Hts & _ & Hnaive & _).
  assert (Ets : ts = VDatetime {| wall := 0; tzinfo := None |}).
  { vm_compute in Hts. by injection Hts as <-. }
  destruct (Hnaive _ Ets eq_refl) as (Hattr & _ & _ & Hitem).
  exists d, h', items. split; [exact Hrun |]. split; [exact Hd |].
  split; [exact Hattr | exact Hitem].
Defined.

Lemma coloured_is_embed : is_embed coloured 0.
Proof. apply is_embedb_sound. vm_compute. reflexivity. Qed.

(** [set_colour(0xFF0000)] on [Embed(title="Hi", colour=5)]: [_colour] is
    bound, [colour] is still 5 and so is the [color] of the mapping. *)
Lemma set_colour_on_coloured :
  is_embed coloured 0
  ∧ (VInt 16711680 = VNone ∨ is_colour_arg (VInt 16711680) = true)
  ∧ ∃ h' d h1' items,
      @set_colour sample_host 0 (VInt 16711680) coloured = (Ret (VRef 0%nat), h')
      ∧ attr_of h' 0 "_colour" = Some (VColour (mkColour 16711680))
      ∧ attr_of h' 0 "colour" = Some (VColour (mkColour 5))
      ∧ @to_dict sample_host 0 h' = (Ret (VRef d), h1')
      ∧ h1' !! d = Some (ODict items)
      ∧ items !! "color" = Some (VInt 5).
Proof.
  split; [apply coloured_is_embed |].
  split; [by right |].
  destruct (proj1 (@set_colour_not_visible sample_host coloured 0 coloured_is_embed)
              (VInt 16711680) (or_intror eq_refl))
    as (h' & Hrun & Hnew & Hold & _ & d & h1 & h1' & items & Hto & Hto' & Hd & Hd').
  exists h', d, h1', items. split; [exact Hrun |]. split; [exact Hnew |].
  split; [rewrite Hold; vm_compute; reflexivity |].
  split; [exact Hto' |]. split; [exact Hd' |].
  vm_compute in Hto. injection Hto as <- <-.
  vm_compute in Hd. injection Hd as <-. vm_compute. reflexivity.
Defined.


(** The round trip of the embed with a timestamp and one field: the
    field list is the same object, the timestamp is now a string. *)
Lemma roundtrip_of_stamped :
  is_embed stamped 0
  ∧ ∃ d h1 c h2,
      @to_dict sample_host 0 stamped = (Ret d, h1)
      ∧ @from_dict (VRef 7%nat) h1 = (Ret (VRef c), h2)
      ∧ attr_of h2 c "fields" = Some (VRef 5%nat)
      ∧ attr_of h2 c "timestamp" = Some (VStr "1970-01-01T00:00:00+00:00")
      ∧ attr_of h2 c "type" = Some (VStr "rich").
Proof.
  split; [apply stamped_is_embed |].
  destruct (@roundtrip_fields sample_host stamped 0 stamped_is_embed)
    as (d & h1 & c & h2 & Hto & Hfrom & Hsame & Hts & Hty & _).
  assert (Hd : d = VRef 7%nat).
  { vm_compute in Hto. by injection Hto as <- _. }
  exists d, h1, c, h2. split; [exact Hto |].
  split; [by rewrite <- Hd |].
  split.
  { apply (Hsame "fields" (VRef 5%nat)); [repeat constructor | |];
      vm_compute; reflexivity. }
  split; [| exact Hty].
  apply (Hts epoch). vm_compute. reflexivity.
Defined.

(** ** Where the specification's words fail *)

(** The timestamp survives serialization, as a string: on the instance
    built back it is that string, on [e] it is a date-time. *)
Lemma roundtrip_timestamp_differs : ¬ @roundtrip_reproduces sample_host stamped 0.
Proof.
  intros H.
  pose (h1 := snd (@to_dict sample_host 0 stamped)).
  pose (items := match h1 !! 7%nat with Some (ODict i) => i | _ => ∅ end).
  pose (h2 := snd (from_dict (VRef 7%nat) h1)).
  specialize (H 7%nat h1 items 8%nat h2 "timestamp").
  assert (Hobs : observe h2 8 "timestamp" = observe h2 0 "timestamp").
  { apply H.
    - vm_compute. reflexivity.
    - vm_compute. reflexivity.
    - vm_compute. reflexivity.
    - repeat constructor.
    - eexists. vm_compute. reflexivity. }
  vm_compute in Hobs. discriminate Hobs.
Qed.

(** C4: the copy is not independent of the original. With
    [e = Embed(title="Hi")] and one field added, [c = e.copy()] is another
    instance whose [fields] is the very list of [e]: [to_dict] puts
    [self.fields] itself in the mapping and [from_dict] adopts it. So
    [c.add_field(name="C", value="D", inline=False)] appends to that one
    list, and [e], which had one field, is seen with two. *)
Lemma copy_shares_fields :
  is_embed one_field 0
  ∧ (∃ c h1 h2,
       @copy sample_host 0 one_field = (Ret (VRef c), h1)
       ∧ c ≠ 0%nat
       ∧ attr_of h1 0 "fields" = Some (VRef 5%nat)
       ∧ attr_of h1 c "fields" = Some (VRef 5%nat)
       ∧ add_field c "C" "D" false h1 = (Ret (VRef c), h2)
       ∧ observe h1 0 "fields" = Some (ViewList [VRef 6%nat])
       ∧ observe h2 0 "fields" = Some (ViewList [VRef 6%nat; VRef 14%nat])
       ∧ h2 !! 14%nat = Some (ODict (field_record "C" "D" false)))
  ∧ ¬ @copy_independent sample_host one_field 0.
Proof.
  pose (h1 := snd (@copy sample_host 0 one_field)).
  pose (h2 := snd (add_field 8 "C" "D" false h1)).
  split; [apply is_embedb_sound; vm_compute; reflexivity |].
  split.
  - exists 8%nat, h1, h2. split; [vm_compute; reflexivity |].
    split; [discriminate |]. repeat split; vm_compute; reflexivity.
  - intros H.
    destruct (H 8%nat h1 ltac:(vm_compute; reflexivity)) as (_ & _ & Hadd & _).
    specialize (Hadd "C" "D" false (Ret (VRef 8%nat)) h2
                  ltac:(vm_compute; reflexivity) "fields" ltac:(repeat constructor)).
    vm_compute in Hadd. discriminate Hadd.
Qed.


(** [set_colour(0x1000000)] on [Embed()]: refused, nothing is bound. *)
Lemma set_colour_out_of_range :
  @set_colour sample_host 0 (VInt 16777216) blank = (Raise ValueError, blank)
  ∧ attr_of blank 0 "_colour" = None
  ∧ ¬ @set_colour_binds_backing sample_host blank 0 (VInt 16777216).
Proof.
  split; [vm_compute; reflexivity |]. split; [vm_compute; reflexivity |].
  intros (h' & Hrun & _). vm_compute in Hrun. discriminate Hrun.
Qed.


(** * Further properties of the mutators *)

Ltac map_lookups :=
  repeat first [ rewrite lookup_insert_eq | rewrite lookup_insert_ne by done ].

Section Mutators.

Context {host : Host}.

Lemma is_embed_footer (h : heap) self name :
  is_embed h self →
  name ∈ ["footer"; "image"; "thumbnail"; "author"] →
  ∃ attrs l d,
    h !! self = Some (OInstance attrs)
    ∧ attrs !! name = Some (VRef l) ∧ h !! l = Some (ODict d) ∧ l ≠ self.
Proof.
  intros (attrs & Hs & Ha) Hn.
  assert (Hd : ∃ l d, attrs !! name = Some (VRef l) ∧ h !! l = Some (ODict d)).
  { repeat (apply elem_of_cons in Hn as [-> | Hn]);
      [ | | | | by apply elem_of_nil in Hn ]; by destruct Ha. }
  destruct Hd as (l & d & Hf & Hl). exists attrs, l, d.
  repeat split; try done. apply (instance_ne_dict _ _ _ _ _ Hs Hl).
Qed.

(** X1. [set_footer] with no truthy argument ([None] or the empty
    string for both) empties the footer in place: the attribute still
    refers to the same dict, which is now empty, and nothing else in the
    store changes. *)
Theorem set_footer_without_arguments_clears (h : heap) self text icon_url :
  is_embed h self →
  truthy_str text = false →
  truthy_url icon_url = false →
  ∃ l d,
    attr_of h self "footer" = Some (VRef l)
    ∧ h !! l = Some (ODict d)
    ∧ set_footer self text icon_url h = (Ret (VRef self), <[l := ODict ∅]> h).
Proof.
  intros He Ht Hi.
  destruct (is_embed_footer h self "footer" He) as (attrs & l & d & Hs & Hf & Hl & Hne);
    [repeat constructor |].
  exists l, d. split; [by unfold attr_of; rewrite Hs |]. split; [done |].
  unfold set_footer. rewrite Ht, Hi. simpl. unfold bind.
  by rewrite (getattr_spec _ _ _ _ _ Hs Hf), (clear_dict_spec _ _ _ Hl).
Qed.

(** X2. [set_footer] with a truthy argument merges: the key of each
    truthy argument gets its string, the key of a falsy one ([None] or
    empty) keeps what it had, as does every other key, and nothing but
    the footer dict changes. *)
Theorem set_footer_merges (h : heap) self text icon_url :
  is_embed h self →
  truthy_str text || truthy_url icon_url = true →
  ∃ l d d',
    attr_of h self "footer" = Some (VRef l)
    ∧ h !! l = Some (ODict d)
    ∧ set_footer self text icon_url h = (Ret (VRef self), <[l := ODict d']> h)
    ∧ d' !! "text"
      = (if truthy_str text then Some (opt_str text) else d !! "text")
    ∧ d' !! "icon_url"
      = (if truthy_url icon_url
         then (λ u, VStr (str_url u)) <$> icon_url
         else d !! "icon_url")
    ∧ ∀ k, k ≠ "text" → k ≠ "icon_url" → d' !! k = d !! k.
Proof.
  intros He Hany.
  destruct (is_embed_footer h self "footer" He) as (attrs & l & d & Hs & Hf & Hl & Hne);
    [repeat constructor |].
  exists l, d.
  unfold set_footer. rewrite Hany. simpl.
  destruct text as [[| a s] |], icon_url as [[[| b s'] | a'] |];
    try discriminate Hany; simpl;
    unfold bind, when, ret;
    rewrite ?(getattr_spec _ _ _ _ _ Hs Hf), ?(setitem_spec _ _ _ _ _ Hl),
      ?(getattr_update _ _ _ _ _ _ _ Hs Hne Hf), ?(setitem_update _ _ _ _ _ _ Hl);
    (eexists; split; [by unfold attr_of; rewrite Hs |]; split; [done |];
     split; [reflexivity |]);
    repeat split; try (intros k Hk1 Hk2); map_lookups; done.
Qed.

Lemma rebind_spec (h : heap) self attrs name :
  h !! self = Some (OInstance attrs) →
  ((let! d := new_dict in setattr self name d) >> ret (VRef self)) h
  = (Ret (VRef self),
     <[self := OInstance (<[name := VRef (length h)]> attrs)]> h ++ [ODict ∅]).
Proof.
  intros Hs. unfold bind. rewrite new_dict_spec.
  rewrite (setattr_spec _ _ _ _ _ (lookup_below _ _ _ _ Hs)).
  by rewrite (insert_below _ _ _ _ _ Hs).
Qed.

(** X3. [remove_footer], [remove_author], [remove_image] and
    [remove_thumbnail] bind the attribute to a new empty dict: the dict
    the attribute referred to before is left as it was (and so is every
    other object but the instance), and the other attributes keep their
    values. *)
Theorem remove_binds_new_dict (h : heap) self name remove :
  is_embed h self →
  (name, remove) ∈ [("footer", remove_footer); ("author", remove_author);
                    ("image", remove_image); ("thumbnail", remove_thumbnail)] →
  ∃ h',
    remove self h = (Ret (VRef self), h')
    ∧ h !! length h = None
    ∧ attr_of h' self name = Some (VRef (length h))
    ∧ h' !! length h = Some (ODict ∅)
    ∧ (∀ k, k ≠ name → attr_of h' self k = attr_of h self k)
    ∧ (∀ l o, l ≠ self → h !! l = Some o → h' !! l = Some o).
Proof.
  intros (attrs & Hs & _) Hin.
  exists (<[self := OInstance (<[name := VRef (length h)]> attrs)]> h ++ [ODict ∅]).
  split.
  { repeat (apply elem_of_cons in Hin as [[= -> ->] | Hin]);
      [ | | | | by apply elem_of_nil in Hin ]; by apply rebind_spec. }
  split; [by apply lookup_ge_None |].
  split; [by rewrite (attr_of_after_to_dict _ _ _ _ _ _ Hs), lookup_insert_eq |].
  split; [apply lookup_top_eq, length_insert |].
  split.
  - intros k Hk. rewrite (attr_of_after_to_dict _ _ _ _ _ _ Hs).
    rewrite lookup_insert_ne by done. unfold attr_of. by rewrite Hs.
  - intros l o Hne Hl. apply lookup_below. by rewrite lookup_update_ne.
Qed.

(** X4. [set_author] writes into the author dict in place: [name] is
    always written; [url] and [icon_url] are written when they are not
    [None], the empty string included, and keep what they had otherwise;
    every other key is kept. *)
Theorem set_author_merges (h : heap) self name url icon_url :
  is_embed h self →
  ∃ l d d',
    attr_of h self "author" = Some (VRef l)
    ∧ h !! l = Some (ODict d)
    ∧ set_author self name url icon_url h = (Ret (VRef self), <[l := ODict d']> h)
    ∧ d' !! "name" = Some (VStr name)
    ∧ d' !! "url" = match url with Some s => Some (VStr s) | None => d !! "url" end
    ∧ d' !! "icon_url"
      = match icon_url with
        | Some u => Some (VStr (str_url u))
        | None => d !! "icon_url"
        end
    ∧ ∀ k, k ≠ "name" → k ≠ "url" → k ≠ "icon_url" → d' !! k = d !! k.
Proof.
  intros He.
  destruct (is_embed_footer h self "author" He) as (attrs & l & d & Hs & Hf & Hl & Hne);
    [repeat constructor |].
  exists l, d. unfold set_author.
  destruct url as [u |], icon_url as [i |]; simpl;
    unfold bind, ret;
    rewrite ?(getattr_spec _ _ _ _ _ Hs Hf), ?(setitem_spec _ _ _ _ _ Hl),
      ?(getattr_update _ _ _ _ _ _ _ Hs Hne Hf), ?(setitem_update _ _ _ _ _ _ Hl),
      ?(getattr_update _ _ _ _ _ _ _ Hs Hne Hf), ?(setitem_update _ _ _ _ _ _ Hl);
    (eexists; split; [by unfold attr_of; rewrite Hs |]; split; [done |];
     split; [reflexivity |]);
    repeat split; try (intros k Hk1 Hk2 Hk3); map_lookups; done.
Qed.

(** X5. [set_image] and [set_thumbnail] work in place on the dict of the
    attribute: a URL, the empty string included, is written under [url]
    and the other keys are kept; [None] empties the whole dict. *)
Theorem set_url_in_place (h : heap) self name setter url :
  is_embed h self →
  (name, setter) ∈ [("image", set_image); ("thumbnail", set_thumbnail)] →
  ∃ l d,
    attr_of h self name = Some (VRef l)
    ∧ h !! l = Some (ODict d)
    ∧ setter self url h
      = (Ret (VRef self),
         <[l := ODict match url with
                      | Some u => <["url" := VStr (str_url u)]> d
                      | None => ∅
                      end]> h).
Proof.
  intros He Hin.
  assert (Hn : name ∈ ["footer"; "image"; "thumbnail"; "author"]).
  { repeat (apply elem_of_cons in Hin as [[= -> ->] | Hin]);
      [ | | by apply elem_of_nil in Hin ]; repeat constructor. }
  destruct (is_embed_footer h self name He Hn) as (attrs & l & d & Hs & Hf & Hl & Hne).
  exists l, d. split; [by unfold attr_of; rewrite Hs |]. split; [done |].
  repeat (apply elem_of_cons in Hin as [[= -> ->] | Hin]);
    [ | | by apply elem_of_nil in Hin ];
    unfold set_image, set_thumbnail, bind; destruct url;
    by rewrite (getattr_spec _ _ _ _ _ Hs Hf),
      ?(setitem_spec _ _ _ _ _ Hl), ?(clear_dict_spec _ _ _ Hl).
Qed.

(** X6. [remove_field] with an index [0 <= i < n] deletes the field at
    position i and keeps the others in order; only the fields list
    changes. *)
Theorem remove_field_at_position (h : heap) self xs (i : nat) :
  is_embed h self →
  fields_of h self = Some xs →
  (i < length xs)%nat →
  ∃ l,
    attr_of h self "fields" = Some (VRef l)
    ∧ remove_field self (Z.of_nat i) h
      = (Ret (VRef self), <[l := OList (take i xs ++ drop (S i) xs)]> h)
    ∧ fields_of (<[l := OList (take i xs ++ drop (S i) xs)]> h) self
      = Some (take i xs ++ drop (S i) xs).
Proof.
  intros He Hf Hi.
  destruct (fields_of_inv _ _ _ He Hf) as (attrs & l & Hs & Ef & Hl).
  exists l. split; [by unfold attr_of; rewrite Hs |].
  split; [| by eapply fields_of_update].
  rewrite (remove_field_in_range _ _ _ _ _ _ Hs Ef Hl) by lia.
  rewrite Z.mod_small by lia. by rewrite Nat2Z.id, delete_take_drop.
Qed.

(** X7. [add_field] appends one new record at the end of the fields
    list: the record is a new object holding [name], [value] and [inline]
    as given, the fields before it are kept in order, and no other
    object of the store changes. Nothing is deduplicated or capped. *)
Theorem add_field_appends (h : heap) self F name value inline :
  is_embed h self →
  fields_of h self = Some F →
  ∃ l h',
    attr_of h self "fields" = Some (VRef l)
    ∧ add_field self name value inline h = (Ret (VRef self), h')
    ∧ fields_of h' self = Some (F ++ [VRef (length h)])
    ∧ h !! length h = None
    ∧ h' !! length h
      = Some (ODict (<["inline" := VBool inline]>
                       (<["value" := VStr value]> (<["name" := VStr name]> ∅))))
    ∧ (∀ l' o, l' ≠ l → h !! l' = Some o → h' !! l' = Some o).
Proof.
  intros He Hf.
  destruct (fields_of_inv _ _ _ He Hf) as (attrs & l & Hs & Ef & Hl).
  assert (Hne : l ≠ self) by apply (instance_ne_list _ _ _ _ _ Hs Hl).
  exists l. eexists. split; [by unfold attr_of; rewrite Hs |].
  split; [apply (add_field_spec _ _ _ _ _ _ _ _ Hs Ef Hl) |].
  split.
  { unfold fields_of, attr_of, list_at.
    rewrite (lookup_below _ _ _ (OInstance attrs)) by (by rewrite lookup_update_ne).
    rewrite Ef. by rewrite (lookup_below _ _ _ _ (lookup_update_eq _ _ _ _ Hl)). }
  split; [by apply lookup_ge_None |].
  split; [apply lookup_top_eq, length_insert |].
  intros l' o Hl' Ho. apply lookup_below. by rewrite lookup_update_ne.
Qed.

Lemma is_embed_update_dict (h : heap) self l d d' :
  is_embed h self → h !! l = Some (ODict d) →
  is_embed (<[l := ODict d']> h) self.
Proof.
  intros (attrs & Hs & Ha) Hl. exists attrs. split.
  - rewrite lookup_update_ne; [done |]. apply (instance_ne_dict _ _ _ _ _ Hs Hl).
  - eapply embed_attrs_kinds; [by eapply same_kinds_update_dict | done | exact Ha].
Qed.

Lemma is_embed_update_list (h : heap) self l xs ys :
  is_embed h self → h !! l = Some (OList xs) →
  is_embed (<[l := OList ys]> h) self.
Proof.
  intros (attrs & Hs & Ha) Hl. exists attrs. split.
  - rewrite lookup_update_ne; [done |]. apply (instance_ne_list _ _ _ _ _ Hs Hl).
  - eapply embed_attrs_kinds; [by eapply same_kinds_update_list | done | exact Ha].
Qed.

Lemma embed_attrs_rebind (h h' : heap) attrs name l d :
  same_kinds h h' →
  embed_attrs h attrs →
  name ∈ ["footer"; "image"; "thumbnail"; "author"] →
  h' !! l = Some (ODict d) →
  embed_attrs h' (<[name := VRef l]> attrs).
Proof.
  intros Hk Ha Hn Hl.
  assert (Ha' : embed_attrs h' attrs)
    by (eapply embed_attrs_kinds; [exact Hk | done | exact Ha]).
  destruct Ha'.
  repeat (apply elem_of_cons in Hn as [-> | Hn]);
    [ | | | | by apply elem_of_nil in Hn ];
    split; rewrite ?lookup_insert_eq, ?lookup_insert_ne by done; eauto.
Qed.

Lemma keeps_embed_rebind (h : heap) self name :
  is_embed h self →
  name ∈ ["footer"; "image"; "thumbnail"; "author"] →
  keeps_embed h self ((let! d := new_dict in setattr self name d) >> ret (VRef self)).
Proof.
  intros (attrs & Hs & Ha) Hn. eexists. split; [by apply rebind_spec |].
  eexists. split; [apply lookup_below; by eapply lookup_update_eq |].
  eapply embed_attrs_rebind; [| exact Ha | exact Hn | apply lookup_top_eq, length_insert].
  eapply same_kinds_trans; [by eapply same_kinds_update_instance |].
  apply same_kinds_app.
Qed.

(** X8. Every mutator, called on an embed, returns that same instance
    without raising and leaves an embed: the eleven attributes are still
    bound, to values of the same kinds. So calls can be chained. *)
Theorem mutators_keep_embed (h : heap) self :
  is_embed h self →
  (∀ value, value = VNone ∨ is_colour_arg value = true →
            keeps_embed h self (set_colour self value))
  ∧ (∀ text icon_url, keeps_embed h self (set_footer self text icon_url))
  ∧ keeps_embed h self (remove_footer self)
  ∧ (∀ name url icon_url, keeps_embed h self (set_author self name url icon_url))
  ∧ keeps_embed h self (remove_author self)
  ∧ (∀ url, keeps_embed h self (set_image self url))
  ∧ keeps_embed h self (remove_image self)
  ∧ (∀ url, keeps_embed h self (set_thumbnail self url))
  ∧ keeps_embed h self (remove_thumbnail self)
  ∧ (∀ name value inline, keeps_embed h self (add_field self name value inline))
  ∧ (∀ index, keeps_embed h self (remove_field self index)).
Proof.
  intros He.
  assert (Hurl : ∀ name setter url,
    (name, setter) ∈ [("image", set_image); ("thumbnail", set_thumbnail)] →
    keeps_embed h self (setter self url)).
  { intros name setter url Hin.
    assert (Hn : name ∈ ["footer"; "image"; "thumbnail"; "author"]).
    { repeat (apply elem_of_cons in Hin as [[= -> ->] | Hin]);
        [ | | by apply elem_of_nil in Hin ]; repeat constructor. }
    destruct (is_embed_footer h self name He Hn)
      as (attrs & l & d & Hs & Hf & Hl & Hne).
    exists (<[l := ODict match url with
                         | Some u => <["url" := VStr (str_url u)]> d
                         | None => ∅
                         end]> h).
    split; [| by apply (is_embed_update_dict h self l d)].
    repeat (apply elem_of_cons in Hin as [[= -> ->] | Hin]);
      [ | | by apply elem_of_nil in Hin ];
      unfold set_image, set_thumbnail, bind; destruct url;
      by rewrite (getattr_spec _ _ _ _ _ Hs Hf),
        ?(setitem_spec _ _ _ _ _ Hl), ?(clear_dict_spec _ _ _ Hl). }
  repeat split.
  - intros value Hv. destruct He as (attrs & Hs & Ha).
    eexists. split; [by apply set_colour_spec |].
    eexists. split; [by eapply lookup_update_eq |].
    eapply embed_attrs_kinds; [by eapply same_kinds_update_instance | | exact Ha].
    intros k Hk. apply lookup_insert_ne. intros <-.
    repeat (apply elem_of_cons in Hk as [? | Hk]; [done |]).
    by apply elem_of_nil in Hk.
  - intros text icon_url.
    destruct (is_embed_footer h self "footer" He)
      as (attrs & l & d & Hs & Hf & Hl & Hne); [repeat constructor |].
    destruct (set_footer_touches _ _ _ _ _ text icon_url Hs Hf Hl) as (d' & Hrun).
    eexists. split; [exact Hrun |]. by apply (is_embed_update_dict h self l d).
  - apply keeps_embed_rebind; [done | repeat constructor].
  - intros name url icon_url.
    destruct (is_embed_footer h self "author" He)
      as (attrs & l & d & Hs & Hf & Hl & Hne); [repeat constructor |].
    destruct (set_author_touches _ _ _ _ _ name url icon_url Hs Hf Hl) as (d' & Hrun).
    eexists. split; [exact Hrun |]. by apply (is_embed_update_dict h self l d).
  - apply keeps_embed_rebind; [done | repeat constructor].
  - intros url. apply (Hurl "image"). repeat constructor.
  - apply keeps_embed_rebind; [done | repeat constructor].
  - intros url. apply (Hurl "thumbnail"). repeat constructor.
  - apply keeps_embed_rebind; [done | repeat constructor].
  - intros name value inline. destruct He as (attrs & Hs & Ha).
    destruct (ea_fields _ _ Ha) as (l & xs & Ef & Hl).
    eexists. split; [apply (add_field_spec _ _ _ _ _ _ _ _ Hs Ef Hl) |].
    exists attrs. by apply is_embed_add_field.
  - intros index. pose proof He as (attrs & Hs & Ha).
    destruct (ea_fields _ _ Ha) as (l & xs & Ef & Hl).
    destruct (decide (- Z.of_nat (length xs) <= index < Z.of_nat (length xs)))
      as [Hin | Hout].
    + eexists. split; [apply (remove_field_in_range _ _ _ _ _ _ Hs Ef Hl Hin) |].
      by apply (is_embed_update_list h self l xs).
    + eexists. split; [| exact He].
      apply (remove_field_out_of_range _ _ _ _ _ _ Hs Ef Hl). lia.
Qed.

End Mutators.

(** * Further properties of construction and conversion *)

Section Conversions.

Context {host : Host}.

(** X9. The constructor returns a new embed: title, description, url and
    timestamp as given, [type] "rich", and five new empty containers, one
    per sub-structure, all different objects; the objects that were in the
    store are left as they were. With neither [colour] nor [color] the
    colour is [None]. *)
Theorem Embed_builds_fresh_embed (h : heap) title description colour color url
    timestamp :
  colour = VNone ∨ is_colour_arg colour = true →
  color = VNone ∨ is_colour_arg color = true →
  ∃ h',
    Embed title description colour color url timestamp h
    = (Ret (VRef (length h)), h')
    ∧ h !! length h = None
    ∧ is_embed h' (length h)
    ∧ attr_of h' (length h) "title" = Some (opt_str title)
    ∧ attr_of h' (length h) "description" = Some (opt_str description)
    ∧ attr_of h' (length h) "url" = Some (opt_str url)
    ∧ attr_of h' (length h) "timestamp" = Some (opt_datetime timestamp)
    ∧ attr_of h' (length h) "type" = Some (VStr "rich")
    ∧ (colour = VNone → color = VNone →
       attr_of h' (length h) "colour" = Some VNone)
    ∧ attr_of h' (length h) "footer" = Some (VRef (length h + 1))
    ∧ attr_of h' (length h) "image" = Some (VRef (length h + 2))
    ∧ attr_of h' (length h) "thumbnail" = Some (VRef (length h + 3))
    ∧ attr_of h' (length h) "author" = Some (VRef (length h + 4))
    ∧ attr_of h' (length h) "fields" = Some (VRef (length h + 5))
    ∧ (∀ k, k ∈ ["footer"; "image"; "thumbnail"; "author"] →
            structure_of h' (length h) k = Some ∅)
    ∧ fields_of h' (length h) = Some []
    ∧ (∀ l o, h !! l = Some o → h' !! l = Some o).
Proof.
  intros Hc1 Hc2.
  destruct (Embed_spec h title description colour color url timestamp Hc1 Hc2)
    as (attrs & Hrun & Hc & Ht & Hd & Hts & Hu & Hty & Hfo & Him & Hth & Hau & Hfi).
  destruct (Embed_is_embed h title description colour color url timestamp Hc1 Hc2)
    as (h'' & Hrun' & He).
  rewrite Hrun in Hrun'. injection Hrun' as <-.
  eexists. split; [exact Hrun |].
  split; [by apply lookup_ge_None |].
  split; [exact He |].
  rewrite !attr_of_new.
  assert (Hat : ∀ k o, [ODict ∅; ODict ∅; ODict ∅; ODict ∅; OList []] !! k = Some o →
     (h ++ [OInstance attrs; ODict ∅; ODict ∅; ODict ∅; ODict ∅; OList []])
       !! (length h + S k)%nat = Some o).
  { intros k o Hk. rewrite lookup_app_r by lia.
    by replace (length h + S k - length h)%nat with (S k) by lia. }
  repeat (split; [done |]).
  split; [by intros -> -> |].
  repeat (split; [done |]).
  split; [| split].
  - intros k Hk. unfold structure_of, dict_at. rewrite attr_of_new.
    repeat (apply elem_of_cons in Hk as [-> | Hk]);
      [ | | | | by apply elem_of_nil in Hk ].
    + by rewrite Hfo, (Hat 0%nat (ODict ∅)).
    + by rewrite Him, (Hat 1%nat (ODict ∅)).
    + by rewrite Hth, (Hat 2%nat (ODict ∅)).
    + by rewrite Hau, (Hat 3%nat (ODict ∅)).
  - unfold fields_of, list_at. by rewrite attr_of_new, Hfi, (Hat 4%nat (OList [])).
  - intros l o Hl. by apply lookup_below.
Qed.

(** X10. [to_dict] returns a new mapping holding exactly the truthy
    attributes: each of title, description, url, author, footer, image,
    thumbnail and fields is a key when it is truthy, with the very value
    of the attribute (a sub-structure is not copied); [color] is the
    integer of a truthy colour; there is never a [type] or [colour] key,
    nor any key outside the ten. No object but the instance is modified,
    and of the instance only the timestamp can be. *)
Theorem to_dict_emits_truthy_attributes (h : heap) self :
  is_embed h self →
  ∃ h' items,
    to_dict self h = (Ret (VRef (length h)), h')
    ∧ h !! length h = None
    ∧ h' !! length h = Some (ODict items)
    ∧ (∀ k, k ∈ ["title"; "description"; "url"; "author"; "footer"; "image";
                 "thumbnail"; "fields"] →
            items !! k
            = match attr_of h self k with
              | Some v => if truthy h v then Some v else None
              | None => None
              end)
    ∧ items !! "color"
      = match attr_of h self "colour" with
        | Some (VColour c) =>
            if Colour_bool c then Some (VInt (Colour_int c)) else None
        | _ => None
        end
    ∧ (∀ k, is_Some (items !! k) →
            k ∈ ["title"; "description"; "url"; "author"; "color"; "footer";
                 "image"; "thumbnail"; "fields"; "timestamp"])
    ∧ (∀ l o, l ≠ self → h !! l = Some o → h' !! l = Some o)
    ∧ (∀ k, k ≠ "timestamp" → attr_of h' self k = attr_of h self k).
Proof.
  intros (attrs & Hs & Ha).
  eexists _, _. split; [apply (to_dict_spec _ _ _ Hs Ha) |].
  split; [by apply lookup_ge_None |].
  split; [apply lookup_top_eq, length_insert |].
  assert (Hh : ∀ k, attr_of h self k = attrs !! k).
  { intros k. unfold attr_of. by rewrite Hs. }
  split; [intros k Hk; by rewrite Hh, serialized_lookup |].
  split; [by rewrite Hh, serialized_lookup_color |].
  split; [| split].
  - intros k [v Hv]. apply serialized_inv in Hv
      as [(Hk & _) | [(-> & _) | (-> & _)]]; [| repeat constructor ..].
    repeat (apply elem_of_cons in Hk as [-> | Hk]);
      [ | | | | | | | | by apply elem_of_nil in Hk ]; repeat constructor.
  - intros l o Hne Hl. apply lookup_below. by rewrite lookup_update_ne.
  - intros k Hk. rewrite (attr_of_after_to_dict _ _ _ _ _ _ Hs), Hh.
    by apply normalized_attrs_other.
Qed.

Lemma normalized_idem (d : datetime) : normalized (normalized d) = normalized d.
Proof.
  unfold normalized. destruct (bool_decide (tzinfo d = None)) eqn:E.
  - unfold astimezone. apply bool_decide_eq_true in E. by rewrite E.
  - by rewrite E.
Qed.

Lemma normalized_attrs_idem attrs :
  normalized_attrs (normalized_attrs attrs) = normalized_attrs attrs.
Proof.
  destruct (attrs !! "timestamp") as [v|] eqn:E; [destruct v |];
    unfold normalized_attrs; rewrite E; cbv beta iota; rewrite ?E; try done.
  by rewrite lookup_insert_eq, insert_insert_eq, normalized_idem.
Qed.

Lemma emit_timestamp_normalized attrs items :
  emit_timestamp (normalized_attrs attrs) items = emit_timestamp attrs items.
Proof.
  unfold emit_timestamp, normalized_attrs.
  destruct (attrs !! "timestamp") as [v|] eqn:E; [destruct v |]; rewrite ?E; try done.
  by rewrite lookup_insert_eq, normalized_idem.
Qed.

Lemma embed_attrs_normalized (h h' : heap) attrs :
  same_kinds h h' → embed_attrs h attrs → embed_attrs h' (normalized_attrs attrs).
Proof.
  intros Hk Ha.
  assert (Ha' : embed_attrs h' attrs)
    by (eapply embed_attrs_kinds; [exact Hk | done | exact Ha]).
  unfold normalized_attrs.
  destruct (attrs !! "timestamp") as [v|] eqn:E; [destruct v |]; try done.
  destruct Ha'.
  split; rewrite ?lookup_insert_eq, ?lookup_insert_ne by done; eauto.
  by eexists.
Qed.

(** The mapping is the same when the emitted attributes and their
    truthiness are. *)
Lemma serialized_agree (h h' : heap) attrs attrs' :
  (∀ k, k ∈ ["title"; "description"; "url"; "author"; "colour"; "footer";
             "image"; "thumbnail"; "fields"] → attrs' !! k = attrs !! k) →
  (∀ k v, k ∈ ["title"; "description"; "url"; "author"; "colour"; "footer";
               "image"; "thumbnail"; "fields"] →
          attrs !! k = Some v → truthy h' v = truthy h v) →
  (∀ items, emit_timestamp attrs' items = emit_timestamp attrs items) →
  serialized h' attrs' = serialized h attrs.
Proof.
  intros Hk Ht Hts. unfold serialized. rewrite Hts. f_equal.
  assert (He : ∀ k items,
    k ∈ ["title"; "description"; "url"; "author"; "colour"; "footer";
         "image"; "thumbnail"; "fields"] →
    emit h' attrs' k k items = emit h attrs k k items).
  { intros k items Hin. unfold emit. rewrite (Hk _ Hin).
    destruct (attrs !! k) as [v|] eqn:E; [| done]. by rewrite (Ht _ _ Hin E). }
  unfold emit_colour. rewrite (Hk "colour") by (repeat constructor).
  by rewrite !He by (repeat constructor).
Qed.

(** X11. Calling [to_dict] twice gives two different mapping objects
    with the same entries, the timestamp string included, and the second
    call changes nothing on the instance: a naive timestamp is made aware
    by the first call only. *)
Theorem to_dict_twice (h : heap) self :
  is_embed h self →
  ∃ h1 h2 items,
    to_dict self h = (Ret (VRef (length h)), h1)
    ∧ to_dict self h1 = (Ret (VRef (length h + 1)), h2)
    ∧ h1 !! length h = Some (ODict items)
    ∧ h2 !! length h = Some (ODict items)
    ∧ h2 !! (length h + 1)%nat = Some (ODict items)
    ∧ h2 !! self = h1 !! self.
Proof.
  intros (attrs & Hs & Ha).
  set (na := normalized_attrs attrs).
  set (items := serialized h attrs).
  set (h1 := <[self := OInstance na]> h ++ [ODict items]).
  assert (Hlen : length h1 = (length h + 1)%nat).
  { unfold h1. rewrite length_app, length_insert. simpl. lia. }
  assert (Hs1 : h1 !! self = Some (OInstance na)).
  { apply lookup_below. by eapply lookup_update_eq. }
  assert (Ha1 : embed_attrs h1 na).
  { apply (embed_attrs_normalized h); [| done].
    eapply same_kinds_trans; [by eapply same_kinds_update_instance |].
    apply same_kinds_app. }
  assert (Hitems : serialized h1 na = items).
  { apply serialized_agree.
    - intros k Hk. apply normalized_attrs_other. intros ->.
      repeat (apply elem_of_cons in Hk as [? | Hk]; [done |]).
      by apply elem_of_nil in Hk.
    - intros k v Hk Hv. apply (truthy_after_to_dict _ _ _ attrs); [done |].
      destruct (embed_attrs_closed h attrs k Ha) as (w & Hw & Hcl).
      { repeat (apply elem_of_cons in Hk as [-> | Hk]);
          [ | | | | | | | | | by apply elem_of_nil in Hk ]; repeat constructor. }
      congruence.
    - apply emit_timestamp_normalized. }
  assert (Hrun2 : to_dict self h1
                  = (Ret (VRef (length h + 1)), h1 ++ [ODict items])).
  { rewrite (to_dict_spec _ _ _ Hs1 Ha1), Hlen, Hitems.
    unfold na at 1. rewrite normalized_attrs_idem. fold na.
    by rewrite (list_insert_id _ _ _ Hs1). }
  exists h1, (h1 ++ [ODict items]), items.
  split; [apply (to_dict_spec _ _ _ Hs Ha) |].
  split; [exact Hrun2 |].
  assert (Htop : h1 !! length h = Some (ODict items))
    by (apply lookup_top_eq, length_insert).
  split; [exact Htop |].
  split; [by apply lookup_below |].
  split; [by apply lookup_top_eq |].
  by rewrite (lookup_below _ _ _ _ Hs1).
Qed.

Lemma deserialized_lookups items n :
  deserialized items n !! "title" = Some (default VNone (items !! "title"))
  ∧ deserialized items n !! "description"
    = Some (default VNone (items !! "description"))
  ∧ deserialized items n !! "url" = Some (default VNone (items !! "url"))
  ∧ deserialized items n !! "timestamp"
    = Some (default VNone (items !! "timestamp"))
  ∧ deserialized items n !! "type" = Some (default (VStr "rich") (items !! "type"))
  ∧ deserialized items n !! "colour" = Some (colour_of_transport items)
  ∧ deserialized items n !! "footer"
    = Some (default (VRef (n + 1)) (items !! "footer"))
  ∧ deserialized items n !! "image"
    = Some (default (VRef (n + 2)) (items !! "image"))
  ∧ deserialized items n !! "thumbnail"
    = Some (default (VRef (n + 3)) (items !! "thumbnail"))
  ∧ deserialized items n !! "author"
    = Some (default (VRef (n + 4)) (items !! "author"))
  ∧ deserialized items n !! "fields"
    = Some (default (VRef (n + 5)) (items !! "fields")).
Proof. unfold deserialized. repeat split; by map_lookups. Qed.

Lemma plain_default items k dflt :
  plain_or_absent items k → scalar dflt → scalar (default dflt (items !! k)).
Proof. unfold plain_or_absent. by destruct (items !! k). Qed.

Lemma dict_default (h h' : heap) items k l0 :
  same_kinds h h' →
  dict_or_absent h items k →
  h' !! l0 = Some (ODict ∅) →
  ∃ l d, default (VRef l0) (items !! k) = VRef l ∧ h' !! l = Some (ODict d).
Proof.
  intros [Hd _] Hk Hl0. unfold dict_or_absent in Hk.
  destruct (items !! k) as [v|]; simpl.
  - destruct Hk as (l & d & -> & Hl). destruct (Hd _ _ Hl) as [d' Hl']. eauto.
  - eauto.
Qed.

Lemma list_default (h h' : heap) items k l0 :
  same_kinds h h' →
  list_or_absent h items k →
  h' !! l0 = Some (OList []) →
  ∃ l xs, default (VRef l0) (items !! k) = VRef l ∧ h' !! l = Some (OList xs).
Proof.
  intros [_ Hd] Hk Hl0. unfold list_or_absent in Hk.
  destruct (items !! k) as [v|]; simpl.
  - destruct Hk as (l & d & -> & Hl). destruct (Hd _ _ Hl) as [d' Hl']. eauto.
  - eauto.
Qed.

(** The attributes [from_dict] binds make an embed. *)
Lemma deserialized_embed_attrs (h h' : heap) items n :
  transport_ok h items →
  same_kinds h h' →
  h' !! (n + 1)%nat = Some (ODict ∅) →
  h' !! (n + 2)%nat = Some (ODict ∅) →
  h' !! (n + 3)%nat = Some (ODict ∅) →
  h' !! (n + 4)%nat = Some (ODict ∅) →
  h' !! (n + 5)%nat = Some (OList []) →
  embed_attrs h' (deserialized items n).
Proof.
  intros [Hp Hc Hd Hf] Hk H1 H2 H3 H4 H5.
  destruct (deserialized_lookups items n)
    as (Et & Ede & Eu & Ets & Ety & Eco & Efo & Eim & Eth & Eau & Efi).
  split.
  - eexists. split; [exact Et |]. apply plain_default; [| done].
    apply Hp. repeat constructor.
  - eexists. split; [exact Ede |]. apply plain_default; [| done].
    apply Hp. repeat constructor.
  - eexists. split; [exact Eu |]. apply plain_default; [| done].
    apply Hp. repeat constructor.
  - eexists. split; [exact Ets |]. apply plain_default; [| done].
    apply Hp. repeat constructor.
  - eexists. split; [exact Ety |]. apply plain_default; [| done].
    apply Hp. repeat constructor.
  - rewrite Eco. unfold colour_of_transport. unfold colour_ok in Hc.
    destruct (items !! "color") as [[| [] | z | | | |]|]; try done; eauto.
  - destruct (dict_default h h' items "footer" (n + 1) Hk) as (l & d & E & Hl);
      [apply Hd; repeat constructor | done |]. exists l, d. by rewrite Efo, E.
  - destruct (dict_default h h' items "image" (n + 2) Hk) as (l & d & E & Hl);
      [apply Hd; repeat constructor | done |]. exists l, d. by rewrite Eim, E.
  - destruct (dict_default h h' items "thumbnail" (n + 3) Hk) as (l & d & E & Hl);
      [apply Hd; repeat constructor | done |]. exists l, d. by rewrite Eth, E.
  - destruct (dict_default h h' items "author" (n + 4) Hk) as (l & d & E & Hl);
      [apply Hd; repeat constructor | done |]. exists l, d. by rewrite Eau, E.
  - destruct (list_default h h' items "fields" (n + 5) Hk) as (l & d & E & Hl);
      [done | done |]. exists l, d. by rewrite Efi, E.
Qed.

Lemma lookup_after_instance (H : heap) a rest i o :
  rest !! i = Some o →
  (H ++ a :: rest) !! (length H + S i)%nat = Some o.
Proof.
  intros Hi. rewrite lookup_app_r by lia.
  by replace (length H + S i - length H)%nat with (S i) by lia.
Qed.

(** X12. [from_dict] on a well-shaped transport mapping returns a new
    embed. A key that is present gives the attribute its value as it is
    (a footer, image, thumbnail, author or fields container is adopted,
    not copied); a missing key gives [None], "rich" for [type], or a new
    empty container. [color] is wrapped whenever it is not [None], 0
    included. The mapping and every other object are left as they were. *)
Theorem from_dict_builds_embed (h : heap) d items :
  h !! d = Some (ODict items) →
  transport_ok h items →
  ∃ h',
    from_dict (VRef d) h = (Ret (VRef (length h)), h')
    ∧ h !! length h = None
    ∧ is_embed h' (length h)
    ∧ (∀ k, k ∈ ["title"; "description"; "url"; "timestamp"] →
            attr_of h' (length h) k = Some (default VNone (items !! k)))
    ∧ attr_of h' (length h) "type" = Some (default (VStr "rich") (items !! "type"))
    ∧ attr_of h' (length h) "colour"
      = Some match items !! "color" with
             | Some (VInt z) => VColour (mkColour z)
             | Some (VBool b) => VColour (mkColour (Z.b2z b))
             | _ => VNone
             end
    ∧ (∀ k v, k ∈ ["footer"; "image"; "thumbnail"; "author"; "fields"] →
              items !! k = Some v → attr_of h' (length h) k = Some v)
    ∧ (∀ k, k ∈ ["footer"; "image"; "thumbnail"; "author"] →
            items !! k = None → structure_of h' (length h) k = Some ∅)
    ∧ (items !! "fields" = None → fields_of h' (length h) = Some [])
    ∧ (∀ l o, h !! l = Some o → h' !! l = Some o).
Proof.
  intros Hd Hok.
  set (rest := [ODict ∅; ODict ∅; ODict ∅; ODict ∅; OList []]).
  assert (Hat : ∀ i o, rest !! i = Some o →
                       (h ++ OInstance (deserialized items (length h)) :: rest) !! (length h + S i)%nat = Some o)
    by (intros i o; apply lookup_after_instance).
  destruct (deserialized_lookups items (length h))
    as (Et & Ede & Eu & Ets & Ety & Eco & Efo & Eim & Eth & Eau & Efi).
  exists (h ++ OInstance (deserialized items (length h)) :: rest).
  split; [apply (from_dict_spec _ _ _ Hd), Hok |].
  split; [by apply lookup_ge_None |].
  split.
  { exists (deserialized items (length h)). split; [by rewrite list_lookup_middle |].
    apply (deserialized_embed_attrs h); [done | apply same_kinds_app | ..].
    - by apply (Hat 0%nat).
    - by apply (Hat 1%nat).
    - by apply (Hat 2%nat).
    - by apply (Hat 3%nat).
    - by apply (Hat 4%nat). }
  split.
  { intros k Hk. rewrite attr_of_new.
    repeat (apply elem_of_cons in Hk as [-> | Hk]);
      [ | | | | by apply elem_of_nil in Hk ]; done. }
  split; [by rewrite attr_of_new |].
  split; [by rewrite attr_of_new |].
  split.
  { intros k v Hk Hv. rewrite attr_of_new.
    repeat (apply elem_of_cons in Hk as [-> | Hk]);
      [ | | | | | by apply elem_of_nil in Hk ];
      first [ by rewrite Efo, Hv | by rewrite Eim, Hv | by rewrite Eth, Hv
            | by rewrite Eau, Hv | by rewrite Efi, Hv ]. }
  split.
  { intros k Hk Hv. unfold structure_of, dict_at. rewrite attr_of_new.
    repeat (apply elem_of_cons in Hk as [-> | Hk]);
      [ | | | | by apply elem_of_nil in Hk ].
    - rewrite Efo, Hv. simpl. by rewrite (Hat 0%nat (ODict ∅)).
    - rewrite Eim, Hv. simpl. by rewrite (Hat 1%nat (ODict ∅)).
    - rewrite Eth, Hv. simpl. by rewrite (Hat 2%nat (ODict ∅)).
    - rewrite Eau, Hv. simpl. by rewrite (Hat 3%nat (ODict ∅)). }
  split.
  { intros Hv. unfold fields_of, list_at. rewrite attr_of_new.
    rewrite Efi, Hv. simpl.
    by rewrite (Hat 4%nat (OList [])). }
  intros l o Hl. by apply lookup_below.
Qed.

Lemma serialized_outside h attrs k :
  k ∉ ["title"; "description"; "url"; "author"; "color"; "footer"; "image";
       "thumbnail"; "fields"; "timestamp"] →
  serialized h attrs !! k = None.
Proof.
  intros Hk. destruct (serialized h attrs !! k) as [v|] eqn:E; [| done].
  exfalso. apply Hk.
  apply serialized_inv in E as [(Hin & _) | [(-> & _) | (-> & _)]];
    [| repeat constructor ..].
  repeat (apply elem_of_cons in Hin as [-> | Hin]);
    [ | | | | | | | | by apply elem_of_nil in Hin ]; repeat constructor.
Qed.

Lemma serialized_transport_ok (h : heap) attrs :
  embed_attrs h attrs → transport_ok h (serialized h attrs).
Proof.
  intros Ha. split.
  - intros k Hk. unfold plain_or_absent.
    destruct (serialized h attrs !! k) as [v|] eqn:E; [| done].
    apply serialized_inv in E as [(Hin & Hv & _) | [(-> & _) | (-> & d & _ & ->)]].
    + destruct (embed_attrs_closed h attrs k Ha) as (w & Hw & _).
      { repeat (apply elem_of_cons in Hk as [-> | Hk]);
          [ | | | | | by apply elem_of_nil in Hk ]; repeat constructor. }
      destruct Ha as [(v1 & ? & ?) (v2 & ? & ?) (v3 & ? & ?) (v4 & ? & ?)
                      (v5 & ? & ?) _ _ _ _ _ _].
      repeat (apply elem_of_cons in Hk as [-> | Hk]);
        [ | | | | | by apply elem_of_nil in Hk ]; congruence.
    + repeat (apply elem_of_cons in Hk as [? | Hk]; [done |]).
      by apply elem_of_nil in Hk.
    + done.
  - by apply serialized_colour_ok.
  - intros k Hk. unfold dict_or_absent.
    destruct (serialized h attrs !! k) as [v|] eqn:E; [| done].
    apply serialized_inv in E as [(Hin & Hv & _) | [(-> & _) | (-> & _)]].
    + destruct Ha as [_ _ _ _ _ _ (l1 & d1 & ? & ?) (l2 & d2 & ? & ?)
                      (l3 & d3 & ? & ?) (l4 & d4 & ? & ?) _].
      repeat (apply elem_of_cons in Hk as [-> | Hk]);
        [ | | | | by apply elem_of_nil in Hk ]; simplify_eq; eauto.
    + repeat (apply elem_of_cons in Hk as [? | Hk]; [done |]).
      by apply elem_of_nil in Hk.
    + repeat (apply elem_of_cons in Hk as [? | Hk]; [done |]).
      by apply elem_of_nil in Hk.
  - unfold list_or_absent.
    destruct (serialized h attrs !! "fields") as [v|] eqn:E; [| done].
    apply serialized_inv in E as [(Hin & Hv & _) | [([=] & _) | ([=] & _)]].
    destruct (ea_fields _ _ Ha) as (l & xs & ? & ?). simplify_eq. eauto.
Qed.

Lemma copied_is_embed (h : heap) e attrs :
  h !! e = Some (OInstance attrs) →
  embed_attrs h attrs →
  embed_attrs (copied h e attrs)
    (deserialized (serialized h attrs) (length h + 1)).
Proof.
  intros Hs Ha.
  apply (deserialized_embed_attrs h).
  - by apply serialized_transport_ok.
  - unfold copied. eapply same_kinds_trans;
      [by eapply same_kinds_update_instance | apply same_kinds_app].
  - replace (length h + 1 + 1)%nat with (length h + 2)%nat by lia.
    by apply copied_lookup_tail.
  - replace (length h + 1 + 2)%nat with (length h + 3)%nat by lia.
    by apply copied_lookup_tail.
  - replace (length h + 1 + 3)%nat with (length h + 4)%nat by lia.
    by apply copied_lookup_tail.
  - replace (length h + 1 + 4)%nat with (length h + 5)%nat by lia.
    by apply copied_lookup_tail.
  - replace (length h + 1 + 5)%nat with (length h + 6)%nat by lia.
    by apply copied_lookup_tail.
Qed.

Lemma truthy_copied (h : heap) e attrs v :
  h !! e = Some (OInstance attrs) → closed h v →
  truthy (copied h e attrs) v = truthy h v.
Proof. intros Hs Hc. unfold copied. by eapply truthy_after_to_dict. Qed.

(** An attribute of the copy is emitted exactly when the original's was. *)
Lemma copied_emits (h : heap) e attrs k i dflt :
  h !! e = Some (OInstance attrs) →
  embed_attrs h attrs →
  k ∈ ["title"; "description"; "url"; "author"; "footer"; "image";
       "thumbnail"; "fields"] →
  deserialized (serialized h attrs) (length h + 1) !! k
  = Some (default dflt (serialized h attrs !! k)) →
  dflt = VNone
  ∨ (dflt = VRef (length h + i) ∧
     (copied h e attrs !! (length h + i)%nat = Some (ODict ∅)
      ∨ copied h e attrs !! (length h + i)%nat = Some (OList []))) →
  serialized (copied h e attrs)
    (deserialized (serialized h attrs) (length h + 1)) !! k
  = serialized h attrs !! k.
Proof.
  intros Hs Ha Hk Hd Hdflt.
  rewrite (serialized_lookup (copied h e attrs)) by done. rewrite Hd.
  rewrite (serialized_lookup h attrs k Hk).
  destruct (embed_attrs_closed h attrs k Ha) as (v & Hv & Hcl).
  { repeat (apply elem_of_cons in Hk as [-> | Hk]);
      [ | | | | | | | | by apply elem_of_nil in Hk ]; repeat constructor. }
  rewrite Hv. destruct (truthy h v) eqn:Ht; simpl.
  - by rewrite (truthy_copied _ _ _ _ Hs Hcl), Ht.
  - destruct Hdflt as [-> | (-> & [Hl | Hl])]; simpl; [done | |]; by rewrite Hl.
Qed.

Lemma copied_serialized (h : heap) e attrs :
  h !! e = Some (OInstance attrs) →
  embed_attrs h attrs →
  serialized (copied h e attrs)
    (deserialized (serialized h attrs) (length h + 1))
  = delete "timestamp" (serialized h attrs).
Proof.
  intros Hs Ha. apply map_eq. intros k.
  destruct (deserialized_lookups (serialized h attrs) (length h + 1))
    as (Et & Ede & Eu & Ets & Ety & Eco & Efo & Eim & Eth & Eau & Efi).
  assert (Hd : ∀ i, (2 ≤ i ≤ 5)%nat →
                    copied h e attrs !! (length h + i)%nat = Some (ODict ∅)).
  { intros i Hi. apply copied_lookup_tail.
    destruct i as [|[|[|[|[|[|?]]]]]]; try lia; reflexivity. }
  assert (Hl : copied h e attrs !! (length h + 6)%nat = Some (OList []))
    by (by apply copied_lookup_tail).
  destruct (decide (k ∈ ["title"; "description"; "url"; "author"; "color";
                         "footer"; "image"; "thumbnail"; "fields"; "timestamp"]))
    as [Hin | Hout].
  2: { rewrite serialized_outside by done.
       destruct (decide (k = "timestamp")) as [-> | Hne];
         [by rewrite lookup_delete_eq |].
       rewrite lookup_delete_ne by done. by rewrite serialized_outside. }
  repeat (apply elem_of_cons in Hin as [-> | Hin]);
    [ | | | | | | | | | | by apply elem_of_nil in Hin ];
    rewrite ?lookup_delete_eq, ?lookup_delete_ne by done.
  - apply (copied_emits _ _ _ _ 0%nat VNone Hs Ha); [repeat constructor | done | by left].
  - apply (copied_emits _ _ _ _ 0%nat VNone Hs Ha); [repeat constructor | done | by left].
  - apply (copied_emits _ _ _ _ 0%nat VNone Hs Ha); [repeat constructor | done | by left].
  - apply (copied_emits _ _ _ _ 5%nat (VRef (length h + 1 + 4)) Hs Ha);
      [repeat constructor | done |].
    right. split; [f_equal; lia |]. left. apply Hd. lia.
  - rewrite !serialized_lookup_color, Eco. unfold colour_of_transport.
    rewrite serialized_lookup_color.
    destruct (attrs !! "colour") as [[| | | | c | |]|]; try done.
    destruct (negb (colour_value c =? 0)) eqn:E; [| done]. simpl. by rewrite E.
  - apply (copied_emits _ _ _ _ 2%nat (VRef (length h + 1 + 1)) Hs Ha);
      [repeat constructor | done |].
    right. split; [f_equal; lia |]. left. apply Hd. lia.
  - apply (copied_emits _ _ _ _ 3%nat (VRef (length h + 1 + 2)) Hs Ha);
      [repeat constructor | done |].
    right. split; [f_equal; lia |]. left. apply Hd. lia.
  - apply (copied_emits _ _ _ _ 4%nat (VRef (length h + 1 + 3)) Hs Ha);
      [repeat constructor | done |].
    right. split; [f_equal; lia |]. left. apply Hd. lia.
  - apply (copied_emits _ _ _ _ 6%nat (VRef (length h + 1 + 5)) Hs Ha);
      [repeat constructor | done |].
    right. split; [f_equal; lia |]. by right.
  - rewrite serialized_lookup_timestamp, Ets, serialized_lookup_timestamp.
    by destruct (attrs !! "timestamp") as [[]|].
Qed.

(** X13. The copy of an embed is an embed, and the mapping of the copy
    is the mapping of the original without the [timestamp] key: the copy
    holds the timestamp as a string, which [to_dict] does not emit. *)
Theorem copy_to_dict_drops_timestamp (h : heap) e :
  is_embed h e →
  ∃ d0 h0 items c h1 d h2,
    to_dict e h = (Ret (VRef d0), h0)
    ∧ h0 !! d0 = Some (ODict items)
    ∧ copy e h = (Ret (VRef c), h1)
    ∧ is_embed h1 c
    ∧ to_dict c h1 = (Ret (VRef d), h2)
    ∧ h2 !! d = Some (ODict (delete "timestamp" items)).
Proof.
  intros (attrs & Hs & Ha).
  assert (Hc : copied h e attrs !! (length h + 1)%nat
               = Some (OInstance (deserialized (serialized h attrs) (length h + 1))))
    by (by apply copied_lookup_tail).
  pose proof (copied_is_embed _ _ _ Hs Ha) as Hac.
  eexists _, _, (serialized h attrs), _, _, _, _.
  split; [apply (to_dict_spec _ _ _ Hs Ha) |].
  split; [apply lookup_top_eq, length_insert |].
  split; [apply (copy_spec _ _ _ Hs Ha) |].
  split; [by eexists |].
  split; [apply (to_dict_spec _ _ _ Hc Hac) |].
  rewrite (copied_serialized _ _ _ Hs Ha).
  apply lookup_top_eq, length_insert.
Qed.

End Conversions.

(** * What [from_dict] adopts *)

Section Adoption.

(** X14. [from_dict] adopts the list under [fields] of the mapping it
    is given: a later [add_field] on the embed appends to that very list,
    so the mapping, which still refers to it, sees the new field. *)
Theorem from_dict_shares_fields (h : heap) d items l xs name value inline :
  h !! d = Some (ODict items) →
  transport_ok h items →
  items !! "fields" = Some (VRef l) →
  h !! l = Some (OList xs) →
  ∃ e h1 h2 r,
    from_dict (VRef d) h = (Ret (VRef e), h1)
    ∧ add_field e name value inline h1 = (Ret (VRef e), h2)
    ∧ h2 !! d = Some (ODict items)
    ∧ h2 !! l = Some (OList (xs ++ [VRef r]))
    ∧ h2 !! r = Some (ODict (field_record name value inline)).
Proof.
  intros Hd Hok Hf Hl.
  set (rest := [ODict ∅; ODict ∅; ODict ∅; ODict ∅; OList []]).
  set (h1 := h ++ OInstance (deserialized items (length h)) :: rest).
  assert (Hs1 : h1 !! length h = Some (OInstance (deserialized items (length h))))
    by (by apply list_lookup_middle).
  assert (Hf1 : deserialized items (length h) !! "fields" = Some (VRef l)).
  { destruct (deserialized_lookups items (length h))
      as (_ & _ & _ & _ & _ & _ & _ & _ & _ & _ & ->). by rewrite Hf. }
  assert (Hl1 : h1 !! l = Some (OList xs)) by (by apply lookup_below).
  assert (Hne : l ≠ d) by (intros ->; congruence).
  exists (length h), h1. eexists _, (length h1).
  split; [apply (from_dict_spec _ _ _ Hd), Hok |].
  split; [apply (add_field_spec _ _ _ _ _ _ _ _ Hs1 Hf1 Hl1) |].
  split; [| split].
  - apply lookup_below. rewrite lookup_update_ne by done. by apply lookup_below.
  - apply lookup_below. by eapply lookup_update_eq.
  - apply lookup_top_eq, length_insert.
Qed.

(** X15. [from_dict] does not check the shape of what it adopts, and
    [remove_field] only swallows [IndexError]: when the mapping binds
    [fields] to a dict, [from_dict] succeeds, after which [add_field]
    raises [AttributeError] and [remove_field] raises [KeyError], both
    leaving the dict as it was. *)
Theorem from_dict_does_not_validate (h : heap) d items l fs :
  h !! d = Some (ODict items) →
  colour_ok items →
  items !! "fields" = Some (VRef l) →
  h !! l = Some (ODict fs) →
  ∃ e h1,
    from_dict (VRef d) h = (Ret (VRef e), h1)
    ∧ attr_of h1 e "fields" = Some (VRef l)
    ∧ h1 !! l = Some (ODict fs)
    ∧ (∀ name value inline,
         ∃ h2, add_field e name value inline h1 = (Raise AttributeError, h2)
               ∧ h2 !! l = Some (ODict fs))
    ∧ (∀ index, remove_field e index h1 = (Raise KeyError, h1)).
Proof.
  intros Hd Hc Hf Hl.
  set (rest := [ODict ∅; ODict ∅; ODict ∅; ODict ∅; OList []]).
  set (h1 := h ++ OInstance (deserialized items (length h)) :: rest).
  assert (Hs1 : h1 !! length h = Some (OInstance (deserialized items (length h))))
    by (by apply list_lookup_middle).
  assert (Hf1 : deserialized items (length h) !! "fields" = Some (VRef l)).
  { destruct (deserialized_lookups items (length h))
      as (_ & _ & _ & _ & _ & _ & _ & _ & _ & _ & ->). by rewrite Hf. }
  assert (Hl1 : h1 !! l = Some (ODict fs)) by (by apply lookup_below).
  exists (length h), h1.
  split; [by apply from_dict_spec |].
  split; [by unfold attr_of; rewrite Hs1 |].
  split; [done |].
  split.
  - intros name value inline. eexists. split.
    + unfold add_field. unfold bind at 1. unfold bind at 1.
      rewrite (getattr_spec _ _ _ _ _ Hs1 Hf1).
      unfold bind at 1. rewrite new_dict_spec.
      do 3 (erewrite bind_step;
            [| rewrite (setitem_spec _ _ _ _ _ (lookup_top _ _));
               by rewrite insert_top]).
      unfold append. by rewrite (lookup_below _ _ _ _ Hl1).
    + by apply lookup_below.
  - intros index. unfold remove_field, bind, try_except_pass.
    rewrite (getattr_spec _ _ _ _ _ Hs1 Hf1). unfold delitem. by rewrite Hl1.
Qed.

End Adoption.

(** * The further properties on the sample data *)

Lemma with_footer_is_embed : is_embed with_footer 0.
Proof. apply is_embedb_sound. vm_compute. reflexivity. Qed.

Lemma sample_mapping_ok : transport_ok mapping_store sample_mapping.
Proof.
  split.
  - intros k Hk.
    repeat (apply elem_of_cons in Hk as [-> | Hk]);
      [ | | | | | by apply elem_of_nil in Hk ]; vm_compute; exact I.
  - vm_compute. reflexivity.
  - intros k Hk.
    repeat (apply elem_of_cons in Hk as [-> | Hk]);
      [ | | | | by apply elem_of_nil in Hk ]; vm_compute; exact I.
  - unfold list_or_absent.
    replace (sample_mapping !! "fields") with (Some (VRef 0%nat))
      by (vm_compute; reflexivity).
    exists 0%nat, []. split; reflexivity.
Qed.

(** [set_footer()] on an embed with a footer. *)
Lemma set_footer_nothing_on_footer :
  is_embed with_footer 0
  ∧ truthy_str None = false ∧ truthy_url None = false
  ∧ ∃ l d,
      attr_of with_footer 0 "footer" = Some (VRef l)
      ∧ with_footer !! l = Some (ODict d)
      ∧ set_footer 0 None None with_footer
        = (Ret (VRef 0%nat), <[l := ODict ∅]> with_footer).
Proof.
  split; [apply with_footer_is_embed |].
  split; [reflexivity |]. split; [reflexivity |].
  apply (set_footer_without_arguments_clears with_footer 0 None None
           with_footer_is_embed eq_refl eq_refl).
Defined.

(** [set_footer(text="c")] on an embed with a footer. *)
Lemma set_footer_text_on_footer :
  is_embed with_footer 0
  ∧ truthy_str (Some "c") || truthy_url None = true
  ∧ ∃ l d d',
      with_footer !! l = Some (ODict d)
      ∧ set_footer 0 (Some "c") None with_footer
        = (Ret (VRef 0%nat), <[l := ODict d']> with_footer)
      ∧ d' !! "text" = Some (VStr "c")
      ∧ d' !! "icon_url" = d !! "icon_url".
Proof.
  split; [apply with_footer_is_embed |].
  split; [reflexivity |].
  destruct (set_footer_merges with_footer 0 (Some "c") None
              with_footer_is_embed eq_refl)
    as (l & d & d' & _ & Hl & Hrun & Ht & Hi & _).
  exists l, d, d'. split; [exact Hl |]. split; [exact Hrun |].
  split; [exact Ht | exact Hi].
Defined.

(** [remove_footer()] on an embed with a footer. *)
Lemma remove_footer_on_footer :
  is_embed with_footer 0
  ∧ ("footer", remove_footer)
    ∈ [("footer", remove_footer); ("author", remove_author);
       ("image", remove_image); ("thumbnail", remove_thumbnail)]
  ∧ ∃ h',
      remove_footer 0 with_footer = (Ret (VRef 0%nat), h')
      ∧ attr_of h' 0 "footer" = Some (VRef 6%nat)
      ∧ h' !! 6%nat = Some (ODict ∅).
Proof.
  split; [apply with_footer_is_embed |].
  split; [repeat constructor |].
  destruct (remove_binds_new_dict with_footer 0 "footer" remove_footer
              with_footer_is_embed ltac:(repeat constructor))
    as (h' & Hrun & _ & Hattr & Hnew & _).
  exists h'. split; [exact Hrun |]. split; [exact Hattr | exact Hnew].
Defined.

(** [set_author(name="n")] on [Embed()]. *)
Lemma set_author_on_blank :
  is_embed blank 0
  ∧ ∃ l d',
      set_author 0 "n" None None blank = (Ret (VRef 0%nat), <[l := ODict d']> blank)
      ∧ d' !! "name" = Some (VStr "n").
Proof.
  split; [apply blank_is_embed |].
  destruct (set_author_merges blank 0 "n" None None blank_is_embed)
    as (l & d & d' & _ & _ & Hrun & Hname & _).
  exists l, d'. split; [exact Hrun | exact Hname].
Defined.

(** [set_thumbnail(url="x")] on [Embed()]. *)
Lemma set_thumbnail_on_blank :
  is_embed blank 0
  ∧ ("thumbnail", set_thumbnail)
    ∈ [("image", set_image); ("thumbnail", set_thumbnail)]
  ∧ ∃ l d,
      blank !! l = Some (ODict d)
      ∧ set_thumbnail 0 (Some (UStr "x")) blank
        = (Ret (VRef 0%nat), <[l := ODict (<["url" := VStr "x"]> d)]> blank).
Proof.
  split; [apply blank_is_embed |].
  split; [repeat constructor |].
  destruct (set_url_in_place blank 0 "thumbnail" set_thumbnail (Some (UStr "x"))
              blank_is_embed ltac:(repeat constructor))
    as (l & d & _ & Hl & Hrun).
  exists l, d. split; [exact Hl | exact Hrun].
Defined.

(** [remove_field(0)] on two fields. *)
Lemma remove_field_first_of_two :
  is_embed two_fields 0
  ∧ fields_of two_fields 0 = Some [VRef 6%nat; VRef 7%nat]
  ∧ (0 < length [VRef 6%nat; VRef 7%nat])%nat
  ∧ ∃ l,
      remove_field 0 0 two_fields
      = (Ret (VRef 0%nat), <[l := OList [VRef 7%nat]]> two_fields).
Proof.
  split; [apply two_fields_is_embed |].
  split; [vm_compute; reflexivity |].
  split; [simpl; lia |].
  destruct (remove_field_at_position two_fields 0 [VRef 6%nat; VRef 7%nat] 0
              two_fields_is_embed ltac:(vm_compute; reflexivity)
              ltac:(simpl; lia))
    as (l & _ & Hrun & _).
  exists l. exact Hrun.
Defined.

(** [add_field] on two fields. *)
Lemma add_field_on_two :
  is_embed two_fields 0
  ∧ fields_of two_fields 0 = Some [VRef 6%nat; VRef 7%nat]
  ∧ ∃ h',
      add_field 0 "E" "F" false two_fields = (Ret (VRef 0%nat), h')
      ∧ fields_of h' 0 = Some [VRef 6%nat; VRef 7%nat; VRef 8%nat].
Proof.
  split; [apply two_fields_is_embed |].
  split; [vm_compute; reflexivity |].
  destruct (add_field_appends two_fields 0 [VRef 6%nat; VRef 7%nat] "E" "F" false
              two_fields_is_embed ltac:(vm_compute; reflexivity))
    as (l & h' & _ & Hrun & Hf & _).
  exists h'. split; [exact Hrun | exact Hf].
Defined.

(** The eleven mutators on the embed with a title and two fields. *)
Lemma mutators_on_two_fields :
  is_embed two_fields 0
  ∧ (VInt 16711680 = VNone ∨ is_colour_arg (VInt 16711680) = true)
  ∧ keeps_embed two_fields 0 (@set_colour sample_host 0 (VInt 16711680))
  ∧ keeps_embed two_fields 0 (set_footer 0 (Some "a") (Some (UStr "b")))
  ∧ keeps_embed two_fields 0 (remove_footer 0)
  ∧ keeps_embed two_fields 0 (set_author 0 "n" (Some "u") None)
  ∧ keeps_embed two_fields 0 (remove_author 0)
  ∧ keeps_embed two_fields 0 (set_image 0 (Some (UStr "x")))
  ∧ keeps_embed two_fields 0 (remove_image 0)
  ∧ keeps_embed two_fields 0 (set_thumbnail 0 None)
  ∧ keeps_embed two_fields 0 (remove_thumbnail 0)
  ∧ keeps_embed two_fields 0 (add_field 0 "E" "F" false)
  ∧ keeps_embed two_fields 0 (remove_field 0 1)
  ∧ keeps_embed two_fields 0 (remove_field 0 2).
Proof.
  split; [apply two_fields_is_embed |].
  split; [by right |].
  destruct (@mutators_keep_embed sample_host two_fields 0 two_fields_is_embed)
    as (Hsc & Hsf & Hrf & Hsa & Hra & Hsi & Hri & Hst & Hrt & Hadd & Hrm).
  split; [apply Hsc; by right |].
  split; [apply Hsf |]. split; [exact Hrf |].
  split; [apply Hsa |]. split; [exact Hra |].
  split; [apply Hsi |]. split; [exact Hri |].
  split; [apply Hst |]. split; [exact Hrt |].
  split; [apply Hadd |]. split; apply Hrm.
Defined.

(** [Embed(title="Hi", color=5)] in the empty store. *)
Lemma Embed_in_empty_store :
  (VNone = VNone ∨ is_colour_arg VNone = true)
  ∧ (VInt 5 = VNone ∨ is_colour_arg (VInt 5) = true)
  ∧ ∃ h',
      @Embed sample_host (Some "Hi") None VNone (VInt 5) None None []
      = (Ret (VRef 0%nat), h')
      ∧ is_embed h' 0
      ∧ fields_of h' 0 = Some [].
Proof.
  split; [by left |]. split; [by right |].
  destruct (@Embed_builds_fresh_embed sample_host [] (Some "Hi") None VNone (VInt 5)
              None None (or_introl eq_refl) (or_intror eq_refl))
    as (h' & Hrun & _ & He & Hrest).
  exists h'. split; [exact Hrun |]. split; [exact He |].
  apply Hrest.
Defined.

(** [to_dict] on the embed with two fields: title and fields, nothing else. *)
Lemma to_dict_keys_of_two_fields :
  is_embed two_fields 0
  ∧ ∃ h' items,
      @to_dict sample_host 0 two_fields = (Ret (VRef 8%nat), h')
      ∧ h' !! 8%nat = Some (ODict items)
      ∧ items !! "title" = Some (VStr "Hi")
      ∧ items !! "fields" = Some (VRef 5%nat)
      ∧ items !! "footer" = None.
Proof.
  split; [apply two_fields_is_embed |].
  destruct (@to_dict_emits_truthy_attributes sample_host two_fields 0
              two_fields_is_embed)
    as (h' & items & Hrun & _ & Hd & Hk & _).
  exists h', items. split; [exact Hrun |]. split; [exact Hd |].
  split; [| split].
  - rewrite (Hk "title") by (repeat constructor). vm_compute. reflexivity.
  - rewrite (Hk "fields") by (repeat constructor). vm_compute. reflexivity.
  - rewrite (Hk "footer") by (repeat constructor). vm_compute. reflexivity.
Defined.

(** [to_dict] twice on an embed with a naive timestamp. *)
Lemma to_dict_twice_on_naive :
  is_embed naive_stamped 0
  ∧ ∃ h1 h2 items,
      @to_dict sample_host 0 naive_stamped = (Ret (VRef 6%nat), h1)
      ∧ @to_dict sample_host 0 h1 = (Ret (VRef 7%nat), h2)
      ∧ h2 !! 6%nat = Some (ODict items)
      ∧ h2 !! 7%nat = Some (ODict items).
Proof.
  split; [apply naive_stamped_is_embed |].
  destruct (@to_dict_twice sample_host naive_stamped 0 naive_stamped_is_embed)
    as (h1 & h2 & items & Hr1 & Hr2 & _ & H6 & H7 & _).
  exists h1, h2, items. split; [exact Hr1 |]. split; [exact Hr2 |].
  split; [exact H6 | exact H7].
Defined.

(** [from_dict] on the sample mapping: colour 0 is wrapped, the list is
    adopted, the footer is new. *)
Lemma from_dict_of_sample_mapping :
  mapping_store !! 1%nat = Some (ODict sample_mapping)
  ∧ transport_ok mapping_store sample_mapping
  ∧ ∃ h',
      from_dict (VRef 1%nat) mapping_store = (Ret (VRef 2%nat), h')
      ∧ is_embed h' 2
      ∧ attr_of h' 2 "colour" = Some (VColour (mkColour 0))
      ∧ attr_of h' 2 "fields" = Some (VRef 0%nat)
      ∧ structure_of h' 2 "footer" = Some ∅.
Proof.
  split; [reflexivity |]. split; [apply sample_mapping_ok |].
  destruct (from_dict_builds_embed mapping_store 1 sample_mapping eq_refl
              sample_mapping_ok)
    as (h' & Hrun & _ & He & _ & _ & Hc & Had & Hnew & _).
  exists h'. split; [exact Hrun |]. split; [exact He |].
  split; [| split].
  - refine (eq_trans Hc _). vm_compute. reflexivity.
  - apply Had; [repeat constructor | vm_compute; reflexivity].
  - apply Hnew; [repeat constructor | vm_compute; reflexivity].
Defined.

(** The mapping of the copy of an embed with a timestamp. *)
Lemma copy_to_dict_of_stamped :
  is_embed stamped 0
  ∧ ∃ items c h1 d h2,
      @copy sample_host 0 stamped = (Ret (VRef c), h1)
      ∧ @to_dict sample_host c h1 = (Ret (VRef d), h2)
      ∧ h2 !! d = Some (ODict (delete "timestamp" items))
      ∧ items !! "timestamp" = Some (VStr "1970-01-01T00:00:00+00:00").
Proof.
  split; [apply stamped_is_embed |].
  destruct (@copy_to_dict_drops_timestamp sample_host stamped 0 stamped_is_embed)
    as (d0 & h0 & items & c & h1 & d & h2 & Hto & Hd0 & Hcopy & _ & Hto2 & Hd).
  exists items, c, h1, d, h2. split; [exact Hcopy |]. split; [exact Hto2 |].
  split; [exact Hd |].
  vm_compute in Hto. injection Hto as <- <-.
  vm_compute in Hd0. injection Hd0 as <-. vm_compute. reflexivity.
Defined.

(** [from_dict] then [add_field] on the sample mapping. *)
Lemma from_dict_then_add_field :
  mapping_store !! 1%nat = Some (ODict sample_mapping)
  ∧ transport_ok mapping_store sample_mapping
  ∧ sample_mapping !! "fields" = Some (VRef 0%nat)
  ∧ mapping_store !! 0%nat = Some (OList [])
  ∧ ∃ e h1 h2 r,
      from_dict (VRef 1%nat) mapping_store = (Ret (VRef e), h1)
      ∧ add_field e "A" "B" true h1 = (Ret (VRef e), h2)
      ∧ h2 !! 1%nat = Some (ODict sample_mapping)
      ∧ h2 !! 0%nat = Some (OList [VRef r]).
Proof.
  split; [reflexivity |]. split; [apply sample_mapping_ok |].
  split; [vm_compute; reflexivity |]. split; [reflexivity |].
  destruct (from_dict_shares_fields mapping_store 1 sample_mapping 0 [] "A" "B" true
              eq_refl sample_mapping_ok ltac:(vm_compute; reflexivity) eq_refl)
    as (e & h1 & h2 & r & Hfrom & Hadd & Hd & Hl & _).
  exists e, h1, h2, r. split; [exact Hfrom |]. split; [exact Hadd |].
  split; [exact Hd | exact Hl].
Defined.

(** [from_dict] on a mapping whose fields is a dict. *)
Lemma from_dict_of_malformed :
  malformed_store !! 1%nat = Some (ODict malformed_mapping)
  ∧ colour_ok malformed_mapping
  ∧ malformed_mapping !! "fields" = Some (VRef 0%nat)
  ∧ malformed_store !! 0%nat = Some (ODict ∅)
  ∧ ∃ e h1,
      from_dict (VRef 1%nat) malformed_store = (Ret (VRef e), h1)
      ∧ remove_field e 0 h1 = (Raise KeyError, h1).
Proof.
  split; [reflexivity |]. split; [vm_compute; exact I |].
  split; [vm_compute; reflexivity |]. split; [reflexivity |].
  destruct (from_dict_does_not_validate malformed_store 1 malformed_mapping 0 ∅
              eq_refl ltac:(vm_compute; exact I) ltac:(vm_compute; reflexivity)
              eq_refl)
    as (e & h1 & Hfrom & _ & _ & _ & Hrm).
  exists e, h1. split; [exact Hfrom | apply Hrm].
Defined.
